(** * Pest-Classification backend: a shallow embedding of [backend/main.py]

    The development follows the Python module top-down:
    - Python exceptions and the [try]/[except] discipline,
    - the numeric data ([float32] values, numpy arrays, PIL images),
    - the process-wide globals [model] and [model_load_error],
    - [load_model_safe], [preprocess_image], [predict_async],
      [health_check] and [predict],
    - the properties of the inference pipeline.

    External collaborators (the file system, the Keras loader, the PIL
    decoder and resampler, the uploaded file) are gathered in the record
    [Env]; everything the module itself computes is a definition. *)

From Stdlib Require Import ZArith NArith List String Ascii Bool Lia.
From Stdlib Require Import Strings.Byte.
From Stdlib Require Import Numbers.DecimalString.
From Stdlib Require Import Floats.SpecFloat.
Import ListNotations.
Local Open Scope Z_scope.
Set Warnings "-register-all".
Set Warnings "-automation".

(* ================================================================= *)
(** ** Python exceptions *)

(** The exception classes the module can meet.  Every class of the model
    derives from [Exception]: the process signals that derive from
    [BaseException] only are asynchronous and no step of the pipeline
    raises them.  [LibraryClass name base] is a class a library declares
    as [class name(base)]. *)
Inductive ExnClass : Type :=
  | Exception
  | ValueError
  | TypeError
  | RuntimeError
  | OSError
  | LookupError
  | IndexError
  | AttributeError
  | MemoryError
  | HTTPException
  | LibraryClass (name : string) (base : ExnClass).

(** PIL's [UnidentifiedImageError] is declared as a subclass of [OSError]. *)
Definition UnidentifiedImageError : ExnClass :=
  LibraryClass "UnidentifiedImageError" OSError.

(** The method resolution order of a class, itself first. *)
Fixpoint mro (c : ExnClass) : list ExnClass :=
  match c with
  | Exception => [Exception]
  | IndexError => [IndexError; LookupError; Exception]
  | LibraryClass _ base => c :: mro base
  | _ => [c; Exception]
  end.

Fixpoint ExnClass_eqb (a b : ExnClass) : bool :=
  match a, b with
  | Exception, Exception => true
  | ValueError, ValueError => true
  | TypeError, TypeError => true
  | RuntimeError, RuntimeError => true
  | OSError, OSError => true
  | LookupError, LookupError => true
  | IndexError, IndexError => true
  | AttributeError, AttributeError => true
  | MemoryError, MemoryError => true
  | HTTPException, HTTPException => true
  | LibraryClass n1 b1, LibraryClass n2 b2 => String.eqb n1 n2 && ExnClass_eqb b1 b2
  | _, _ => false
  end.

Definition issubclass (c parent : ExnClass) : bool :=
  existsb (ExnClass_eqb parent) (mro c).

(** A raised exception: an ordinary exception built from a message, or
    FastAPI's [HTTPException(status_code, detail)]. *)
Inductive exn : Type :=
  | Exn (cls : ExnClass) (message : string)
  | HTTPExn (status_code : Z) (detail : string).

Definition class_of (e : exn) : ExnClass :=
  match e with
  | Exn cls _ => cls
  | HTTPExn _ _ => HTTPException
  end.

Definition isinstance (e : exn) (c : ExnClass) : bool :=
  issubclass (class_of e) c.

Definition str_of_Z (z : Z) : string := NilZero.string_of_int (Z.to_int z).

(** [str(e)].  Starlette's [HTTPException.__str__] is
    [f"{self.status_code}: {self.detail}"]. *)
Definition str (e : exn) : string :=
  match e with
  | Exn _ message => message
  | HTTPExn status_code detail => (str_of_Z status_code ++ ": " ++ detail)%string
  end.

(** The outcome of evaluating a Python expression or block. *)
Inductive Res (A : Type) : Type :=
  | Ok (a : A)
  | Raise (e : exn).
Arguments Ok {A} a.
Arguments Raise {A} e.

(* ================================================================= *)
(** ** Numeric data *)

(** *** [numpy.float32] *)

(** IEEE-754 binary32: 24 bits of precision, exponent bound 128. *)
Definition float32 : Type := spec_float.
Definition f32_of_Z (z : Z) : float32 := binary_normalize 24 128 z 0 false.
Definition f32_div : float32 -> float32 -> float32 := SFdiv 24 128.
Definition f32_zero : float32 := f32_of_Z 0.
Definition f32_one : float32 := f32_of_Z 1.

Definition is_nan (x : spec_float) : bool :=
  match x with S754_nan => true | _ => false end.

(** [0.0 <= x <= 1.0] *)
Definition in_unit_interval (x : float32) : bool :=
  SFleb f32_zero x && SFleb x f32_one.

(** *** [numpy.ndarray] *)

(** An array is its shape and its elements in row-major order. *)
Record ndarray (A : Type) : Type := mk_ndarray {
  shape : list Z;
  data : list A
}.
Arguments mk_ndarray {A} shape data.
Arguments shape {A} n.
Arguments data {A} n.

Definition ndim {A} (a : ndarray A) : Z := Z.of_nat (List.length (shape a)).

(** [a.astype(np.float32)] on a [uint8] array: every byte value is
    represented exactly. *)
Definition astype_float32 (a : ndarray byte) : ndarray float32 :=
  mk_ndarray (shape a) (map (fun b => f32_of_Z (Z.of_N (Byte.to_N b))) (data a)).

(** [a / 255.0] on a [float32] array: the Python scalar does not widen
    the array's element type, the division is done in [float32]. *)
Definition divide_255 (a : ndarray float32) : ndarray float32 :=
  mk_ndarray (shape a) (map (fun v => f32_div v (f32_of_Z 255)) (data a)).

(** [np.stack([a] * 3, axis=-1)]: a new last axis of size 3. *)
Definition stack3_last {A} (a : ndarray A) : ndarray A :=
  mk_ndarray (shape a ++ [3]) (flat_map (fun v => [v; v; v]) (data a)).

Fixpoint chunks {A} (fuel : nat) (k : nat) (l : list A) : list (list A) :=
  match fuel, l with
  | O, _ => []
  | _, [] => []
  | S fuel', _ => firstn k l :: chunks fuel' k (skipn k l)
  end.

(** [np.concatenate([a] * 3, axis=-1)]: every row along the last axis is
    followed by two copies of itself. *)
Definition concatenate3_last {A} (a : ndarray A) : ndarray A :=
  let k := last (shape a) 0 in
  mk_ndarray (removelast (shape a) ++ [3 * k])
             (flat_map (fun row => row ++ row ++ row)
                       (chunks (List.length (data a)) (Z.to_nat k) (data a))).

(** [np.expand_dims(a, axis=0)] *)
Definition expand_dims0 {A} (a : ndarray A) : ndarray A :=
  mk_ndarray (1 :: shape a) (data a).

(** *** PIL images *)

(** The 8-bit pixel modes of PIL and their number of bands. *)
Inductive Mode : Type := mode_L | mode_P | mode_LA | mode_RGB | mode_RGBA | mode_CMYK.

Definition bands (m : Mode) : nat :=
  match m with
  | mode_L | mode_P => 1
  | mode_LA => 2
  | mode_RGB => 3
  | mode_RGBA | mode_CMYK => 4
  end.

(** [im_size] is PIL's [(width, height)]; [im_band x y c] is band [c] of
    the pixel in column [x] of row [y]. *)
Record Image : Type := mk_Image {
  im_mode : Mode;
  im_size : Z * Z;
  im_band : nat -> nat -> nat -> byte
}.

(** [np.array(img)]: shape [(height, width)] for a single-band image and
    [(height, width, bands)] otherwise, rows first. *)
Definition np_array (img : Image) : ndarray byte :=
  let '(width, height) := im_size img in
  let nb := bands (im_mode img) in
  mk_ndarray
    (if Nat.eqb nb 1 then [height; width] else [height; width; Z.of_nat nb])
    (flat_map (fun y =>
       flat_map (fun x => map (fun c => im_band img x y c) (seq 0 nb))
                (seq 0 (Z.to_nat width)))
       (seq 0 (Z.to_nat height))).

(* ================================================================= *)
(** ** Python values read from the model object *)

(** The values [model.input_shape] can hold: [None], an integer, or a
    tuple (or list) of such values. *)
Inductive PyVal : Type :=
  | PyNone
  | PyInt (z : Z)
  | PyTuple (items : list PyVal).

(** Truth value testing. *)
Definition truthy (v : PyVal) : bool :=
  match v with
  | PyNone => false
  | PyInt z => negb (z =? 0)
  | PyTuple items => match items with [] => false | _ => true end
  end.

(** [len(v)] *)
Definition py_len (v : PyVal) : Res Z :=
  match v with
  | PyTuple items => Ok (Z.of_nat (List.length items))
  | PyNone => Raise (Exn TypeError "object of type 'NoneType' has no len()")
  | PyInt _ => Raise (Exn TypeError "object of type 'int' has no len()")
  end.

(** [v[i]] for a non-negative literal index [i]. *)
Definition py_getitem (v : PyVal) (i : nat) : Res PyVal :=
  match v with
  | PyTuple items =>
      match nth_error items i with
      | Some x => Ok x
      | None => Raise (Exn IndexError "tuple index out of range")
      end
  | PyNone => Raise (Exn TypeError "'NoneType' object is not subscriptable")
  | PyInt _ => Raise (Exn TypeError "'int' object is not subscriptable")
  end.

(** [int(v)] *)
Definition py_int (v : PyVal) : Res Z :=
  match v with
  | PyInt z => Ok z
  | PyNone =>
      Raise (Exn TypeError "int() argument must be a string, a bytes-like object or a real number, not 'NoneType'")
  | PyTuple _ =>
      Raise (Exn TypeError "int() argument must be a string, a bytes-like object or a real number, not 'tuple'")
  end.

(** What reading an attribute of an object does: the attribute is absent
    ([AttributeError]), its property raises, or it has a value. *)
Inductive Attr : Type :=
  | attr_missing
  | attr_raises (e : exn)
  | attr_value (v : PyVal).

(** The loaded Keras model, as far as the module uses it. *)
Record Model : Type := mk_Model {
  input_shape : Attr;
  output_shape : Attr;
  (** [model.predict(img_array, verbose=0)]: one row of scores per image
      of the batch. *)
  model_predict : ndarray float32 -> Res (list (list float32))
}.

(** [obj.name] *)
Definition getattr (a : Attr) (name : string) : Res PyVal :=
  match a with
  | attr_missing =>
      Raise (Exn AttributeError ("object has no attribute '" ++ name ++ "'")%string)
  | attr_raises e => Raise e
  | attr_value v => Ok v
  end.

(** [hasattr(obj, name)]: false on [AttributeError], any other exception
    propagates. *)
Definition hasattr (a : Attr) (name : string) : Res bool :=
  match getattr a name with
  | Ok _ => Ok true
  | Raise e => if isinstance e AttributeError then Ok false else Raise e
  end.

(* ================================================================= *)
(** ** Module constants *)

Definition LABELS : list string := ["Semilooper"; "Spodoptera"; "Healthy Leaf"]%string.
Definition IMAGE_SIZE : Z * Z := (224, 224).
Definition MAX_FILE_SIZE : Z := 20 * 1024 * 1024.

(* ================================================================= *)
(** ** Globals, external calls and the effect monad *)

(** The calls the module makes to its collaborators, in the order made. *)
Inductive Call : Type :=
  | call_path_exists                         (* os.path.exists(MODEL_PATH) *)
  | call_load_model                          (* tf.keras.models.load_model(MODEL_PATH, compile=False) *)
  | call_file_read                           (* await file.read() *)
  | call_Image_open (image_bytes : list byte)  (* Image.open(BytesIO(image_bytes)) *)
  | call_model_predict (img_array : ndarray float32).  (* model.predict(img_array, verbose=0) *)

(** The module globals [model] and [model_load_error], and the log of
    external calls. *)
Record State : Type := mk_State {
  model : option Model;
  model_load_error : option string;
  calls : list Call
}.

Definition Py (A : Type) : Type := State -> Res A * State.

Definition ret {A} (a : A) : Py A := fun st => (Ok a, st).

Definition raise {A} (e : exn) : Py A := fun st => (Raise e, st).

Definition bind {A B} (m : Py A) (k : A -> Py B) : Py B :=
  fun st =>
    match m st with
    | (Ok a, st') => k a st'
    | (Raise e, st') => (Raise e, st')
    end.

Notation "x <- m ;; k" := (bind m (fun x => k))
  (at level 61, m at next level, right associativity).
Notation "m ;;; k" := (bind m (fun _ => k))
  (at level 61, right associativity).

(** An expression that only computes: its outcome, state untouched. *)
Definition lift {A} (r : Res A) : Py A := fun st => (r, st).

Definition get_model : Py (option Model) := fun st => (Ok (model st), st).

Definition get_model_load_error : Py (option string) :=
  fun st => (Ok (model_load_error st), st).

Definition set_model (m : option Model) : Py unit :=
  fun st => (Ok tt, mk_State m (model_load_error st) (calls st)).

Definition set_model_load_error (e : option string) : Py unit :=
  fun st => (Ok tt, mk_State (model st) e (calls st)).

(** An external call: logged, then its outcome. *)
Definition external {A} (c : Call) (r : Res A) : Py A :=
  fun st => (r, mk_State (model st) (model_load_error st) (calls st ++ [c])).

(** [try: body  except C1 as e: h1  except C2 as e: h2 ...]: the first
    clause whose class the exception is an instance of handles it; with
    no such clause the exception propagates. *)
Definition try_except {A} (body : Py A) (handlers : list (ExnClass * (exn -> Py A))) : Py A :=
  fun st =>
    match body st with
    | (Ok a, st') => (Ok a, st')
    | (Raise e, st') =>
        match find (fun h => isinstance e (fst h)) handlers with
        | Some h => snd h e st'
        | None => (Raise e, st')
        end
    end.

(** The collaborators of one request. *)
Record Env : Type := mk_Env {
  MODEL_PATH : string;
  (** [os.path.exists(MODEL_PATH)] *)
  os_path_exists : bool;
  (** [tf.keras.models.load_model(MODEL_PATH, compile=False)] *)
  keras_load_model : Res Model;
  (** [Image.open(BytesIO(image_bytes))] *)
  Image_open : list byte -> Res Image;
  (** the pixels [img.convert(mode)] computes; loading is deferred to
      this call, so it can fail on truncated data *)
  pil_convert_data : Image -> Mode -> Res (nat -> nat -> nat -> byte);
  (** the pixels [img.resize(size)] computes *)
  pil_resample : Image -> Z * Z -> Res (nat -> nat -> nat -> byte)
}.

(** The uploaded file of a request. *)
Record UploadFile : Type := mk_UploadFile {
  content_type : option string;
  filename : option string;
  (** the outcome of [await file.read()] *)
  file_read : Res (list byte)
}.

(** JSON values of the response bodies. *)
Inductive Json : Type :=
  | JStr (s : string)
  | JInt (z : Z)
  | JFloats (l : list spec_float).

(** A response body: a dict, in insertion order. *)
Definition Payload : Type := list (string * Json).

(** A float that [json.dumps(..., allow_nan=False)] accepts: neither a
    NaN nor an infinity. *)
Definition is_finite (x : spec_float) : bool :=
  match x with
  | S754_zero _ | S754_finite _ _ _ => true
  | S754_infinity _ | S754_nan => false
  end.

Definition json_compliant (v : Json) : bool :=
  match v with
  | JFloats l => forallb is_finite l
  | JStr _ | JInt _ => true
  end.

(** Can the body be rendered as JSON? *)
Definition renders (body : Payload) : bool :=
  forallb (fun kv => json_compliant (snd kv)) body.

(** How the framework turns a handler's outcome into a response.  A
    returned dict is rendered with [json.dumps(..., allow_nan=False)]:
    it is a 200 when it renders, and the [ValueError] of the rendering
    is a bare 500 otherwise.  An [HTTPException] is its status code
    with the detail as body, any other exception is a bare 500. *)
Definition respond (r : Res Payload) : Z * Payload :=
  match r with
  | Ok body =>
      if renders body then (200, body)
      else (500, [("detail"%string, JStr "Internal Server Error")])
  | Raise (HTTPExn status_code detail) => (status_code, [("detail"%string, JStr detail)])
  | Raise (Exn _ _) => (500, [("detail"%string, JStr "Internal Server Error")])
  end.

(** [x or default] on an optional string: [None] and the empty string
    are both false. *)
Definition or_default (x : option string) (default : string) : string :=
  match x with
  | None => default
  | Some EmptyString => default
  | Some s => s
  end.

(** [len(contents)] *)
Definition len {A} (l : list A) : Z :=
  fold_left (fun n _ => n + 1) l 0.

(** [np.argmax] on a one-dimensional float array: the first position of
    the maximum, where a NaN counts as maximal (the scan replaces the
    current maximum [mp] by [x] whenever [x <= mp] does not hold, and
    stops at a NaN). *)
Fixpoint argmax_scan (mp : spec_float) (best i : nat) (l : list spec_float) : nat :=
  match l with
  | [] => best
  | x :: l' =>
      if negb (SFleb x mp)
      then if is_nan x then i else argmax_scan x i (S i) l'
      else argmax_scan mp best (S i) l'
  end.

Definition np_argmax (l : list spec_float) : Res nat :=
  match l with
  | [] => Raise (Exn ValueError "attempt to get argmax of an empty sequence")
  | x :: l' => Ok (if is_nan x then O else argmax_scan x 0 1 l')
  end.

(** [seq[i]] on a Python list. *)
Definition list_getitem {A} (l : list A) (i : nat) : Res A :=
  match nth_error l i with
  | Some x => Ok x
  | None => Raise (Exn IndexError "list index out of range")
  end.

(** [a.shape[-1]] *)
Definition shape_last {A} (a : ndarray A) : Res Z :=
  match shape a with
  | [] => Raise (Exn IndexError "tuple index out of range")
  | d :: ds => Ok (last ds d)
  end.

(** [[f(LABELS[i], p) for i, p in enumerate(probabilities)]]: the labels
    looked up while the log line is built. *)
Fixpoint enumerate_labels (i : nat) (probabilities : list spec_float) : Res (list string) :=
  match probabilities with
  | [] => Ok []
  | _ :: rest =>
      match list_getitem LABELS i with
      | Raise e => Raise e
      | Ok l =>
          match enumerate_labels (S i) rest with
          | Raise e => Raise e
          | Ok ls => Ok (l :: ls)
          end
      end
  end.

(** Python's [float] is binary64. *)
Definition f64_mul : spec_float -> spec_float -> spec_float := SFmul 53 1024.
Definition f64_of_Z (z : Z) : spec_float := binary_normalize 53 1024 z 0 false.

(* ================================================================= *)
(** ** The module's functions *)

Section Backend.

Variable W : Env.

(** [img.convert(mode)]: same size, the requested mode. *)
Definition Image_convert (img : Image) (mode : Mode) : Res Image :=
  match pil_convert_data W img mode with
  | Raise e => Raise e
  | Ok px => Ok (mk_Image mode (im_size img) px)
  end.

(** [img.resize(size)] with [size = (width, height)]: same mode, exactly
    the requested size; a size below 1 is refused. *)
Definition Image_resize (img : Image) (size : Z * Z) : Res Image :=
  if (fst size <? 1) || (snd size <? 1)
  then Raise (Exn ValueError "height and width must be > 0")
  else match pil_resample W img size with
       | Raise e => Raise e
       | Ok px => Ok (mk_Image (im_mode img) size px)
       end.

(** [load_model_safe()], lines 89-108. *)
Definition load_model_safe : Py bool :=
  m <- get_model ;;
  match m with
  | Some _ => ret true
  | None =>
      try_except
        (found <- external call_path_exists (Ok (os_path_exists W)) ;;
         if negb found then
           set_model_load_error (Some ("Model file not found at " ++ MODEL_PATH W)%string) ;;;
           ret false
         else
           loaded <- external call_load_model (keras_load_model W) ;;
           set_model (Some loaded) ;;;
           (* the two shapes are read for the log lines *)
           _ <- lift (getattr (input_shape loaded) "input_shape") ;;
           _ <- lift (getattr (output_shape loaded) "output_shape") ;;
           set_model_load_error None ;;;
           ret true)
        [(Exception, fun e => set_model_load_error (Some (str e)) ;;; ret false)]
  end.

(** The target size block of [preprocess_image], lines 150-159. *)
Definition target_size_block : Py (Z * Z) :=
  try_except
    (m <- get_model ;;
     match m with
     | None => ret IMAGE_SIZE
     | Some mdl =>
         has <- lift (hasattr (input_shape mdl) "input_shape") ;;
         if has then
           v <- lift (getattr (input_shape mdl) "input_shape") ;;
           if truthy v then
             shape <- lift (getattr (input_shape mdl) "input_shape") ;;
             n <- lift (py_len shape) ;;
             if 3 <=? n then
               s1 <- lift (py_getitem shape 1) ;;
               if truthy s1 then
                 s2 <- lift (py_getitem shape 2) ;;
                 if truthy s2 then
                   a <- lift (py_int s1) ;;
                   b <- lift (py_int s2) ;;
                   ret (a, b)
                 else ret IMAGE_SIZE
               else ret IMAGE_SIZE
             else ret IMAGE_SIZE
           else ret IMAGE_SIZE
         else ret IMAGE_SIZE
     end)
    [(Exception, fun _ => ret IMAGE_SIZE)].

(** The body of the [try] of [preprocess_image], lines 143-177. *)
Definition preprocess_steps (image_bytes : list byte) : Py (ndarray float32) :=
  img <- external (call_Image_open image_bytes) (Image_open W image_bytes) ;;
  img <- lift (Image_convert img mode_RGB) ;;
  target_size <- target_size_block ;;
  img <- lift (Image_resize img target_size) ;;
  let img_array := divide_255 (astype_float32 (np_array img)) in
  img_array <-
    (if ndim img_array =? 2 then ret (stack3_last img_array)
     else
       d <- lift (shape_last img_array) ;;
       if d =? 1 then ret (concatenate3_last img_array) else ret img_array) ;;
  ret (expand_dims0 img_array).

(** [preprocess_image(image_bytes)], lines 129-179. *)
Definition preprocess_image (image_bytes : list byte) : Py (ndarray float32) :=
  try_except (preprocess_steps image_bytes)
    [(Exception,
      fun e => raise (Exn ValueError ("Failed to process image: " ++ str e)%string))].

(** [predict_async(img_array)], lines 182-194. *)
Definition predict_async (img_array : ndarray float32) : Py (list (list float32)) :=
  m <- get_model ;;
  match m with
  | None => raise (Exn RuntimeError "Model is not loaded")
  | Some mdl => external (call_model_predict img_array) (model_predict mdl img_array)
  end.

(** [health_check()], lines 197-200. *)
Definition health_check : Py Payload :=
  ret [("status"%string, JStr "ok")].

(** The model readiness gate of [predict], lines 217-222. *)
Definition readiness_gate : Py unit :=
  m <- get_model ;;
  match m with
  | Some _ => ret tt
  | None =>
      ok <- load_model_safe ;;
      if negb ok then
        err <- get_model_load_error ;;
        let detail := or_default err "Model not loaded" in
        raise (HTTPExn 503 ("Model not loaded: " ++ detail)%string)
      else ret tt
  end.

(** Does the content type pass the check of line 225? *)
Definition is_image_content_type (ct : option string) : bool :=
  match ct with
  | None => false
  | Some EmptyString => false
  | Some s => String.prefix "image/" s
  end.

(** [f"{file.content_type}"] *)
Definition format_content_type (ct : option string) : string :=
  match ct with None => "None"%string | Some s => s end.

(** The message of the 413: [MAX_FILE_SIZE / (1024*1024)] is [20.0]. *)
Definition too_large_detail : string := "File too large. Maximum size is 20.0 MB".

(** Response assembly, lines 251-267. *)
Definition assemble_response (predictions : list (list float32)) : Py Payload :=
  row <- lift (list_getitem predictions 0) ;;
  let probabilities := row in                      (* predictions[0].tolist() *)
  predicted_index <- lift (np_argmax row) ;;
  predicted_label <- lift (list_getitem LABELS predicted_index) ;;
  p <- lift (list_getitem probabilities predicted_index) ;;
  let confidence := f64_mul p (f64_of_Z 100) in
  _ <- lift (enumerate_labels 0 probabilities) ;;  (* the log line of line 261 *)
  ret [("label"%string, JStr predicted_label);
       ("index"%string, JInt (Z.of_nat predicted_index));
       ("probabilities"%string, JFloats probabilities)].

(** Lines 242-267: normalisation, inference and response assembly. *)
Definition classify (contents : list byte) : Py Payload :=
  img_array <- preprocess_image contents ;;
  predictions <- predict_async img_array ;;
  assemble_response predictions.

(** The body of the [try] of [predict], lines 232-267. *)
Definition predict_steps (file : UploadFile) : Py Payload :=
  contents <- external call_file_read (file_read file) ;;
  if len contents >? MAX_FILE_SIZE then
    raise (HTTPExn 413 too_large_detail)
  else classify contents.

(** The [except] clauses of [predict], lines 269-272. *)
Definition predict_handlers : list (ExnClass * (exn -> Py Payload)) :=
  [(ValueError, fun e => raise (HTTPExn 400 (str e)));
   (Exception, fun e => raise (HTTPExn 500 ("Prediction failed: " ++ str e)%string))].

(** [predict(file)], lines 203-272. *)
Definition predict (file : UploadFile) : Py Payload :=
  readiness_gate ;;;
  if negb (is_image_content_type (content_type file)) then
    raise (HTTPExn 400 ("Invalid file type: " ++ format_content_type (content_type file)
                          ++ ". Must be an image.")%string)
  else
    try_except (predict_steps file) predict_handlers.

End Backend.

(* ================================================================= *)
(** ** A runnable instance of the collaborators

    To run the functions on concrete inputs the collaborators are
    instantiated with a raw image format (one header byte, [0x4C] for
    grayscale or [0x43] for colour, then width, height and the pixel
    bytes) and nearest-neighbour resampling. *)

Module Demo.

Definition pixel_bytes (mode : Mode) (w h : nat) : nat := (w * h * bands mode)%nat.

Definition raw_image (mode : Mode) (w h : nat) (pixels : list byte) : Res Image :=
  if Nat.eqb (List.length pixels) (pixel_bytes mode w h)
  then Ok (mk_Image mode (Z.of_nat w, Z.of_nat h)
             (fun x y c => nth ((y * w + x) * bands mode + c) pixels x00))
  else Raise (Exn OSError "image file is truncated").

Definition open (image_bytes : list byte) : Res Image :=
  match image_bytes with
  | x4c :: w :: h :: pixels =>
      raw_image mode_L (N.to_nat (Byte.to_N w)) (N.to_nat (Byte.to_N h)) pixels
  | x43 :: w :: h :: pixels =>
      raw_image mode_RGB (N.to_nat (Byte.to_N w)) (N.to_nat (Byte.to_N h)) pixels
  | _ => Raise (Exn UnidentifiedImageError "cannot identify image file")
  end.

(** A single band is replicated, further bands are kept or dropped. *)
Definition convert_data (img : Image) (mode : Mode) : Res (nat -> nat -> nat -> byte) :=
  Ok (fun x y c => im_band img x y (if Nat.eqb (bands (im_mode img)) 1 then O else c)).

Definition resample (img : Image) (size : Z * Z) : Res (nat -> nat -> nat -> byte) :=
  Ok (fun x y c =>
        im_band img
          (Z.to_nat (Z.of_nat x * fst (im_size img) / fst size))
          (Z.to_nat (Z.of_nat y * snd (im_size img) / snd size)) c).

(** A classifier that answers every image with the scores
    [0.125, 0.75, 0.125]. *)
Definition scores : list float32 :=
  [f32_div (f32_of_Z 1) (f32_of_Z 8); f32_div (f32_of_Z 3) (f32_of_Z 4);
   f32_div (f32_of_Z 1) (f32_of_Z 8)].

Definition classifier (height width : Z) : Model :=
  mk_Model (attr_value (PyTuple [PyNone; PyInt height; PyInt width; PyInt 3]))
           (attr_value (PyTuple [PyNone; PyInt 3]))
           (fun _ => Ok [scores]).

(** The artifact is present and loads. *)
Definition env (height width : Z) : Env :=
  mk_Env "model.keras" true (Ok (classifier height width)) open convert_data resample.

(** The artifact is absent. *)
Definition env_no_artifact : Env :=
  mk_Env "model.keras" false (Raise (Exn OSError "No such file")) open convert_data resample.

(** The 12 bytes of [b"not an image"]. *)
Definition not_an_image : list byte :=
  [x6e; x6f; x74; x20; x61; x6e; x20; x69; x6d; x61; x67; x65].

(** A 2x1 colour image. *)
Definition colour_2x1 : list byte :=
  [x43; x02; x01; x00; x80; xff; x10; x20; x30].

(** A 1x2 grayscale image. *)
Definition gray_1x2 : list byte := [x4c; x01; x02; x00; xff].

(** [n] zero bytes. *)
Definition zeros (n : N) : list byte := N.iter n (cons x00) [].

Definition upload (ct : string) (contents : list byte) : UploadFile :=
  mk_UploadFile (Some ct) (Some "leaf.jpg"%string) (Ok contents).

Definition unloaded : State := mk_State None None [].
Definition failed : State := mk_State None (Some "Model file not found at model.keras"%string) [].
Definition loaded (height width : Z) : State := mk_State (Some (classifier height width)) None [].

End Demo.

(* ================================================================= *)
(** ** Vocabulary of the statements *)

(** The outcomes of [load_model_safe] from an empty handle, by what the
    collaborators answer. *)
Inductive LoadCase (W : Env) (st : State) : Res bool * State -> Prop :=
  | load_absent :
      os_path_exists W = false ->
      LoadCase W st
        (Ok false,
         mk_State None (Some ("Model file not found at " ++ MODEL_PATH W)%string)
                  (calls st ++ [call_path_exists]))
  | load_raises e :
      os_path_exists W = true ->
      keras_load_model W = Raise e ->
      LoadCase W st
        (Ok false,
         mk_State None (Some (str e)) ((calls st ++ [call_path_exists]) ++ [call_load_model]))
  | load_shape_raises mdl e :
      os_path_exists W = true ->
      keras_load_model W = Ok mdl ->
      LoadCase W st
        (Ok false,
         mk_State (Some mdl) (Some (str e))
                  ((calls st ++ [call_path_exists]) ++ [call_load_model]))
  | load_done mdl :
      os_path_exists W = true ->
      keras_load_model W = Ok mdl ->
      LoadCase W st
        (Ok true,
         mk_State (Some mdl) None ((calls st ++ [call_path_exists]) ++ [call_load_model])).

(** [sub in s] *)
Definition Contains (s sub : string) : Prop :=
  exists pre post, s = (pre ++ sub ++ post)%string.

(** The model's declared [(height, width)], in the words of the
    specification: the model is loaded, its input shape is a sequence of
    at least three entries, and the entries at positions 1 and 2 are
    both present, that is integers other than zero. *)
Definition declared_height_width (m : option Model) : option (Z * Z) :=
  match m with
  | None => None
  | Some mdl =>
      match input_shape mdl with
      | attr_value (PyTuple (_ :: PyInt height :: PyInt width :: _)) =>
          if (height =? 0) || (width =? 0) then None else Some (height, width)
      | _ => None
      end
  end.

(** The target size the specification describes. *)
Definition spec_target_size (m : option Model) : Z * Z :=
  match declared_height_width m with
  | Some hw => hw
  | None => IMAGE_SIZE
  end.

(** The state after the decoder was called. *)
Definition opened (st : State) (image_bytes : list byte) : State :=
  mk_State (model st) (model_load_error st) (calls st ++ [call_Image_open image_bytes]).

(** A step of the [try] body fails with exception [e]: the decoder, the
    conversion to RGB, or the resize to the target size. *)
Inductive StepFails (W : Env) (m : option Model) (image_bytes : list byte) (e : exn) : Prop :=
  | open_fails :
      Image_open W image_bytes = Raise e ->
      StepFails W m image_bytes e
  | convert_fails img :
      Image_open W image_bytes = Ok img ->
      Image_convert W img mode_RGB = Raise e ->
      StepFails W m image_bytes e
  | resize_fails img rgb :
      Image_open W image_bytes = Ok img ->
      Image_convert W img mode_RGB = Ok rgb ->
      Image_resize W rgb (spec_target_size m) = Raise e ->
      StepFails W m image_bytes e.

(** All steps succeed and [resized] is the resized RGB image. *)
Inductive StepsDone (W : Env) (m : option Model) (image_bytes : list byte) (resized : Image) : Prop :=
  | steps_done img rgb :
      Image_open W image_bytes = Ok img ->
      Image_convert W img mode_RGB = Ok rgb ->
      Image_resize W rgb (spec_target_size m) = Ok resized ->
      StepsDone W m image_bytes resized.

(** The state after the upload was read. *)
Definition after_read (st : State) : State :=
  mk_State (model st) (model_load_error st) (calls st ++ [call_file_read]).

(** What the two [except] clauses make of the body's outcome. *)
Definition map_outcome (r : Res Payload) : Res Payload :=
  match r with
  | Ok body => Ok body
  | Raise e =>
      if isinstance e ValueError then Raise (HTTPExn 400 (str e))
      else Raise (HTTPExn 500 ("Prediction failed: " ++ str e)%string)
  end.

(** No entry is a NaN. *)
Definition no_nan (l : list spec_float) : Prop :=
  forall p, In p l -> is_nan p = false.

(** [m], at position [r] of [l], is a maximum of [l] and the first one. *)
Definition first_maximum (l : list spec_float) (r : nat) (m : spec_float) : Prop :=
  nth_error l r = Some m
  /\ (forall p, In p l -> SFleb p m = true)
  /\ (forall j p, (j < r)%nat -> nth_error l j = Some p -> SFltb p m = true).

(* ================================================================= *)
(** ** Startup and the life of the process *)

(** The startup half of [lifespan(app)], lines 42-79.  [getsize] is the
    outcome of [os.path.getsize(MODEL_PATH)], read for a log line only
    and not entered in the call log.  The shutdown half (lines 83-86)
    prints and changes nothing. *)
Definition lifespan_startup (W : Env) (getsize : Res Z) : Py unit :=
  try_except
    (found <- external call_path_exists (Ok (os_path_exists W)) ;;
     if negb found then
       set_model_load_error (Some ("Model file not found at " ++ MODEL_PATH W)%string)
     else
       _ <- lift getsize ;;
       try_except
         (loaded <- external call_load_model (keras_load_model W) ;;
          set_model (Some loaded) ;;;
          _ <- lift (getattr (input_shape loaded) "input_shape") ;;
          _ <- lift (getattr (output_shape loaded) "output_shape") ;;
          set_model_load_error None)
         [(Exception, fun e => set_model_load_error (Some (str e)))])
    [(Exception, fun e => set_model_load_error (Some (str e)))].

(** The globals when the module has just been imported, lines 30-32. *)
Definition fresh : State := mk_State None None [].

(** The states the process goes through: startup runs once on the fresh
    globals, then the handlers run, each request with its own
    collaborators. *)
Inductive Reachable : State -> Prop :=
  | reach_startup W getsize :
      Reachable (snd (lifespan_startup W getsize fresh))
  | reach_health st :
      Reachable st -> Reachable (snd (health_check st))
  | reach_predict W file st :
      Reachable st -> Reachable (snd (predict W file st)).

(** A computation that leaves the two globals as they are. *)
Definition keeps_globals {A} (m : Py A) : Prop :=
  forall st,
    model (snd (m st)) = model st
    /\ model_load_error (snd (m st)) = model_load_error st.

(** The tensor [preprocess_image] builds from the resized RGB image. *)
Definition tensor_of (resized : Image) : ndarray float32 :=
  expand_dims0 (divide_255 (astype_float32 (np_array resized))).


(** The value of line 165 for one intensity: the byte as [float32],
    divided by [255.0]. *)
Definition scale_intensity (b : byte) : float32 :=
  f32_div (f32_of_Z (Z.of_N (Byte.to_N b))) (f32_of_Z 255).

(** The number of elements a shape announces. *)
Definition shape_size (s : list Z) : Z := fold_right Z.mul 1 s.

(* ================================================================= *)
(** ** Exceptions: every class derives from [Exception] *)

Lemma ExnClass_eqb_refl (c : ExnClass) : ExnClass_eqb c c = true.
Proof.
  induction c; simpl; trivial.
  rewrite String.eqb_refl, IHc. reflexivity.
Qed.

Lemma issubclass_Exception (c : ExnClass) : issubclass c Exception = true.
Proof.
  unfold issubclass.
  induction c; simpl; trivial.
Qed.

Lemma isinstance_Exception (e : exn) : isinstance e Exception = true.
Proof. apply issubclass_Exception. Qed.

Lemma isinstance_self (e : exn) : isinstance e (class_of e) = true.
Proof.
  unfold isinstance, issubclass.
  destruct (class_of e) eqn:E; simpl; trivial.
  rewrite String.eqb_refl, ExnClass_eqb_refl. reflexivity.
Qed.

(** An [HTTPException] is not a [ValueError]: the first clause of
    [predict]'s handlers lets it pass, the second one takes it. *)
Lemma HTTPExn_not_ValueError (status_code : Z) (detail : string) :
  isinstance (HTTPExn status_code detail) ValueError = false.
Proof. reflexivity. Qed.

(** A [try] with an [except Exception] clause alone: the handler runs on
    every exception of the body. *)
Lemma try_except_Exception {A} (body : Py A) (h : exn -> Py A) (st : State) :
  try_except body [(Exception, h)] st =
  match body st with
  | (Ok a, st') => (Ok a, st')
  | (Raise e, st') => h e st'
  end.
Proof.
  unfold try_except.
  destruct (body st) as [[a | e] st']; trivial.
  simpl. rewrite isinstance_Exception. reflexivity.
Qed.

(* ================================================================= *)
(** ** [health_check] *)

(** C5: [GET /health] answers 200 with the body [{"status": "ok"}] in
    every state of the globals (model unloaded, loaded or failed, any
    recorded error, any call history), and leaves that state as it
    found it; the handler takes no collaborator and reads no global. *)
Theorem health_check_unconditional (st : State) :
  respond (fst (health_check st)) = (200, [("status"%string, JStr "ok")])
  /\ snd (health_check st) = st.
Proof. split; reflexivity. Qed.

(* ================================================================= *)
(** ** [load_model_safe] *)

Lemma load_model_safe_loaded (W : Env) (st : State) (mdl : Model) :
  model st = Some mdl ->
  load_model_safe W st = (Ok true, st).
Proof.
  intros Hm. unfold load_model_safe, bind, get_model.
  rewrite Hm. reflexivity.
Qed.

(** C4: when the model is already loaded, [load_model_safe] returns
    [True] at once and the whole state is as before: the same model
    object (hence the same declared shapes), the same recorded error,
    and no call to the file system or to the Keras loader; a second
    call changes nothing either. *)
Theorem load_model_safe_idempotent (W : Env) (st : State) (mdl : Model) :
  model st = Some mdl ->
  load_model_safe W st = (Ok true, st)
  /\ model (snd (load_model_safe W st)) = Some mdl
  /\ model_load_error (snd (load_model_safe W st)) = model_load_error st
  /\ calls (snd (load_model_safe W st)) = calls st
  /\ load_model_safe W (snd (load_model_safe W st)) = load_model_safe W st.
Proof.
  intros Hm.
  rewrite (load_model_safe_loaded W st mdl Hm); simpl.
  rewrite (load_model_safe_loaded W st mdl Hm).
  repeat split; trivial.
Qed.

Lemma load_model_safe_idempotent_witness :
  model (Demo.loaded 224 224) = Some (Demo.classifier 224 224)
  /\ load_model_safe (Demo.env 224 224) (Demo.loaded 224 224)
     = (Ok true, Demo.loaded 224 224).
Proof.
  split.
  - reflexivity.
  - apply (load_model_safe_idempotent (Demo.env 224 224) (Demo.loaded 224 224)
             (Demo.classifier 224 224)).
    reflexivity.
Defined.

Lemma load_model_safe_cases (W : Env) (st : State) :
  model st = None -> LoadCase W st (load_model_safe W st).
Proof.
  intros Hm. unfold load_model_safe, bind at 1, get_model. rewrite Hm.
  rewrite try_except_Exception.
  unfold bind, external, set_model_load_error, set_model, lift, ret; simpl.
  rewrite Hm.
  destruct (os_path_exists W) eqn:Hex; simpl.
  - destruct (keras_load_model W) as [mdl | e] eqn:Hload; simpl.
    + destruct (getattr (input_shape mdl) "input_shape") as [v1 | e1]; simpl.
      * destruct (getattr (output_shape mdl) "output_shape") as [v2 | e2]; simpl.
        -- now apply load_done.
        -- now apply load_shape_raises.
      * now apply load_shape_raises.
    + now apply load_raises.
  - now apply load_absent.
Qed.

(** [load_model_safe] records its failures, it never raises. *)
Lemma load_model_safe_total (W : Env) (st : State) :
  exists ok, fst (load_model_safe W st) = Ok ok.
Proof.
  destruct (model st) as [mdl |] eqn:Hm.
  - rewrite (load_model_safe_loaded W st mdl Hm). now exists true.
  - destruct (load_model_safe_cases W st Hm); eexists; reflexivity.
Qed.

(* ================================================================= *)
(** ** The model readiness gate *)

Lemma Contains_suffix (pre sub : string) : Contains (pre ++ sub) sub.
Proof.
  exists pre, EmptyString.
  f_equal. induction sub; simpl; congruence.
Qed.

Lemma Contains_empty (s : string) : Contains s EmptyString.
Proof. exists EmptyString, s. reflexivity. Qed.

Lemma or_default_Contains (pre err default : string) :
  Contains (pre ++ or_default (Some err) default) err.
Proof.
  destruct err as [| a err]; simpl.
  - apply Contains_empty.
  - apply (Contains_suffix pre (String a err)).
Qed.

(** With an empty handle the gate is one call of [load_model_safe] and a
    test of its answer. *)
Lemma readiness_gate_unloaded (W : Env) (st : State) :
  model st = None ->
  readiness_gate W st =
  match load_model_safe W st with
  | (Ok true, st') => (Ok tt, st')
  | (Ok false, st') =>
      (Raise (HTTPExn 503 ("Model not loaded: "
                            ++ or_default (model_load_error st') "Model not loaded")%string),
       st')
  | (Raise e, st') => (Raise e, st')
  end.
Proof.
  intros Hm. unfold readiness_gate, bind at 1, get_model. rewrite Hm.
  unfold bind at 1.
  destruct (load_model_safe W st) as [[[|] | e] st']; reflexivity.
Qed.

Lemma readiness_gate_loaded (W : Env) (st : State) (mdl : Model) :
  model st = Some mdl -> readiness_gate W st = (Ok tt, st).
Proof.
  intros Hm. unfold readiness_gate, bind, get_model. rewrite Hm. reflexivity.
Qed.

(** C7: a request that finds the model handle empty (unloaded or failed)
    runs [load_model_safe] once; when that attempt fails the request
    ends with a 503 whose detail contains the error the attempt
    recorded, the globals are those the attempt left, and the only
    external calls made are the attempt's own (the existence test, and
    the loader when the artifact exists): the upload is not read, no
    image is opened, the model is not run. *)
Theorem predict_model_unavailable (W : Env) (file : UploadFile) (st : State) :
  model st = None ->
  fst (load_model_safe W st) = Ok false ->
  exists err detail,
    predict W file st = (Raise (HTTPExn 503 detail), snd (load_model_safe W st))
    /\ fst (respond (fst (predict W file st))) = 503
    /\ model_load_error (snd (predict W file st)) = Some err
    /\ Contains detail err
    /\ (calls (snd (predict W file st)) = calls st ++ [call_path_exists]
        \/ calls (snd (predict W file st)) = calls st ++ [call_path_exists; call_load_model]).
Proof.
  intros Hm Hfail.
  assert (Hp : predict W file st =
               (Raise (HTTPExn 503 ("Model not loaded: "
                  ++ or_default (model_load_error (snd (load_model_safe W st)))
                       "Model not loaded")%string),
                snd (load_model_safe W st))).
  { unfold predict, bind. rewrite (readiness_gate_unloaded W st Hm).
    destruct (load_model_safe W st) as [[[|] | e] st']; simpl in Hfail;
      try discriminate; reflexivity. }
  pose proof (load_model_safe_cases W st Hm) as HC.
  rewrite Hp.
  destruct HC as [Hex | e Hex Hload | mdl e Hex Hload | mdl Hex Hload];
    cbn [fst] in Hfail; try discriminate;
    cbn [fst snd model_load_error calls respond].
  - exists ("Model file not found at " ++ MODEL_PATH W)%string. eexists.
    split; [reflexivity |]. split; [reflexivity |]. split; [reflexivity |].
    split; [apply (or_default_Contains "Model not loaded: ") | now left].
  - exists (str e). eexists.
    split; [reflexivity |]. split; [reflexivity |]. split; [reflexivity |].
    split; [apply (or_default_Contains "Model not loaded: ")
           | right; now rewrite <- app_assoc].
  - exists (str e). eexists.
    split; [reflexivity |]. split; [reflexivity |]. split; [reflexivity |].
    split; [apply (or_default_Contains "Model not loaded: ")
           | right; now rewrite <- app_assoc].
Qed.

Lemma predict_model_unavailable_witness :
  exists err detail,
    predict Demo.env_no_artifact (Demo.upload "image/jpeg" Demo.colour_2x1) Demo.failed
      = (Raise (HTTPExn 503 detail),
         snd (load_model_safe Demo.env_no_artifact Demo.failed))
    /\ fst (respond (fst (predict Demo.env_no_artifact
                            (Demo.upload "image/jpeg" Demo.colour_2x1) Demo.failed))) = 503
    /\ model_load_error (snd (predict Demo.env_no_artifact
                                (Demo.upload "image/jpeg" Demo.colour_2x1) Demo.failed))
       = Some err
    /\ Contains detail err
    /\ (calls (snd (predict Demo.env_no_artifact
                      (Demo.upload "image/jpeg" Demo.colour_2x1) Demo.failed))
        = calls Demo.failed ++ [call_path_exists]
        \/ calls (snd (predict Demo.env_no_artifact
                         (Demo.upload "image/jpeg" Demo.colour_2x1) Demo.failed))
           = calls Demo.failed ++ [call_path_exists; call_load_model]).
Proof.
  apply (predict_model_unavailable Demo.env_no_artifact
           (Demo.upload "image/jpeg" Demo.colour_2x1) Demo.failed);
    reflexivity.
Defined.

(* ================================================================= *)
(** ** The target size *)

Lemma try_except_ret_const {A} (body : Py A) (a : A) (st : State) :
  (forall r st', body st = (r, st') -> st' = st /\ (forall x, r = Ok x -> x = a)) ->
  try_except body [(Exception, fun _ => ret a)] st = (Ok a, st).
Proof.
  intros H. rewrite try_except_Exception.
  destruct (body st) as [[x | e] st'] eqn:E;
    destruct (H _ _ eq_refl) as [-> Hx].
  - now rewrite (Hx x eq_refl).
  - reflexivity.
Qed.

Lemma target_size_block_spec (st : State) :
  target_size_block st = (Ok (spec_target_size (model st)), st).
Proof.
  unfold target_size_block. rewrite try_except_Exception.
  unfold spec_target_size, declared_height_width, bind at 1, get_model.
  destruct (model st) as [mdl |]; [| reflexivity].
  unfold bind, lift, ret, hasattr.
  destruct (input_shape mdl) as [| e | v]; simpl.
  - reflexivity.
  - destruct (isinstance e AttributeError); reflexivity.
  - destruct v as [| z | items]; simpl; try reflexivity.
    + destruct (z =? 0); reflexivity.
    + destruct items as [| i0 [| i1 [| i2 rest]]]; try reflexivity;
        try (destruct i1; reflexivity).
      replace (3 <=? Z.of_nat (List.length (i0 :: i1 :: i2 :: rest))) with true
        by (symmetry; apply Z.leb_le; simpl List.length; lia).
      simpl.
      destruct i1 as [| h | t1], i2 as [| w | t2]; simpl; try reflexivity;
        repeat match goal with
               | |- context [?z =? 0] => destruct (z =? 0); simpl
               | |- context [match ?t with [] => _ | _ :: _ => _ end] =>
                   destruct t; simpl
               end;
        reflexivity.
Qed.

(** C6: the target size block of [preprocess_image] always yields a
    size and leaves the state alone; the size is the model's declared
    [(height, width)] when the model is loaded and both dimensions of
    its input shape are present (not [None], not zero), and it is the
    default 224x224 in every other case: no model, no [input_shape]
    attribute, a property that raises, an empty or short shape, a
    missing dimension, or entries that are not integers. *)
Theorem target_size_prefers_declared_shape (st : State) :
  target_size_block st =
  (Ok match declared_height_width (model st) with
      | Some (height, width) => (height, width)
      | None => (224, 224)
      end, st).
Proof.
  rewrite target_size_block_spec. unfold spec_target_size.
  destruct (declared_height_width (model st)) as [[h w] |]; reflexivity.
Qed.

(* ================================================================= *)
(** ** [preprocess_image] *)

(** *** Arrays of converted and resized images *)

Lemma Image_convert_mode (W : Env) (img out : Image) (mode : Mode) :
  Image_convert W img mode = Ok out ->
  im_mode out = mode /\ im_size out = im_size img.
Proof.
  unfold Image_convert.
  destruct (pil_convert_data W img mode); intros H; inversion H; auto.
Qed.

Lemma Image_resize_size (W : Env) (img out : Image) (size : Z * Z) :
  Image_resize W img size = Ok out ->
  im_mode out = im_mode img /\ im_size out = size /\ 1 <= fst size /\ 1 <= snd size.
Proof.
  unfold Image_resize.
  destruct (fst size <? 1) eqn:Hw; [discriminate |].
  destruct (snd size <? 1) eqn:Hh; [discriminate |].
  apply Z.ltb_ge in Hw, Hh. simpl.
  destruct (pil_resample W img size); intros H; inversion H; auto.
Qed.

(** The array of an RGB image: rows, columns, three channels. *)
Lemma np_array_RGB_shape (img : Image) :
  im_mode img = mode_RGB ->
  shape (np_array img) = [snd (im_size img); fst (im_size img); 3].
Proof.
  intros Hmode. unfold np_array.
  destruct (im_size img) as [width height]. rewrite Hmode. reflexivity.
Qed.

Lemma shape_last_3 {A} (a : ndarray A) (h w : Z) :
  shape a = [h; w; 3] -> ndim a = 3 /\ shape_last a = Ok 3.
Proof.
  intros Hs. unfold ndim, shape_last. rewrite Hs. auto.
Qed.

(** Every intensity 0..255, converted to [float32] and divided by
    [255.0], lies in the unit interval. *)
Lemma scaled_byte_in_unit_interval (b : byte) :
  in_unit_interval (f32_div (f32_of_Z (Z.of_N (Byte.to_N b))) (f32_of_Z 255)) = true.
Proof. destruct b; vm_compute; reflexivity. Qed.

Lemma normalised_in_unit_interval (a : ndarray byte) :
  Forall (fun v => in_unit_interval v = true) (data (divide_255 (astype_float32 a))).
Proof.
  unfold divide_255, astype_float32; simpl.
  rewrite map_map. apply Forall_map, Forall_forall.
  intros b _. apply scaled_byte_in_unit_interval.
Qed.

Lemma normalised_shape (a : ndarray byte) :
  shape (divide_255 (astype_float32 a)) = shape a.
Proof. reflexivity. Qed.

Lemma grayscale_fallback_free
    (W : Env) (img rgb resized : Image) (target_size : Z * Z) :
  Image_convert W img mode_RGB = Ok rgb ->
  Image_resize W rgb target_size = Ok resized ->
  ndim (divide_255 (astype_float32 (np_array resized))) = 3
  /\ shape_last (divide_255 (astype_float32 (np_array resized))) = Ok 3.
Proof.
  intros Hconv Hres.
  destruct (Image_convert_mode W img rgb mode_RGB Hconv) as [Hmode _].
  destruct (Image_resize_size W rgb resized target_size Hres) as [Hmode' _].
  apply (shape_last_3 _ (snd (im_size resized)) (fst (im_size resized))).
  rewrite normalised_shape. apply np_array_RGB_shape. congruence.
Qed.

(** *** The outcome of [preprocess_image], step by step *)

Lemma preprocess_steps_fail (W : Env) (st : State) (image_bytes : list byte) (e : exn) :
  StepFails W (model st) image_bytes e ->
  preprocess_steps W image_bytes st = (Raise e, opened st image_bytes).
Proof.
  intros HF. unfold preprocess_steps, bind at 1, external.
  fold (opened st image_bytes).
  destruct HF as [Ho | img Ho Hc | img rgb Ho Hc Hr]; rewrite Ho; trivial.
  - unfold bind at 1, lift. rewrite Hc. reflexivity.
  - unfold bind at 1, lift. rewrite Hc.
    unfold bind at 1. rewrite target_size_block_spec.
    unfold bind at 1. simpl model. rewrite Hr. reflexivity.
Qed.

Lemma preprocess_steps_done (W : Env) (st : State) (image_bytes : list byte) (resized : Image) :
  StepsDone W (model st) image_bytes resized ->
  preprocess_steps W image_bytes st =
  (Ok (expand_dims0 (divide_255 (astype_float32 (np_array resized)))),
   opened st image_bytes).
Proof.
  intros [img rgb Ho Hc Hr]. unfold preprocess_steps, bind at 1, external.
  fold (opened st image_bytes). rewrite Ho.
  unfold bind at 1, lift. rewrite Hc.
  unfold bind at 1. rewrite target_size_block_spec.
  unfold bind at 1. simpl model. rewrite Hr.
  destruct (grayscale_fallback_free W img rgb resized _ Hc Hr) as [Hn Hl].
  unfold bind at 1. unfold bind at 1. rewrite Hn. simpl (3 =? 2).
  unfold lift. rewrite Hl. reflexivity.
Qed.

(** Every run of the [try] body is of one of the two kinds. *)
Lemma preprocess_steps_cases (W : Env) (m : option Model) (image_bytes : list byte) :
  (exists e, StepFails W m image_bytes e) \/ (exists resized, StepsDone W m image_bytes resized).
Proof.
  destruct (Image_open W image_bytes) as [img | e] eqn:Ho.
  - destruct (Image_convert W img mode_RGB) as [rgb | e] eqn:Hc.
    + destruct (Image_resize W rgb (spec_target_size m)) as [resized | e] eqn:Hr.
      * right. exists resized. now apply (steps_done W m image_bytes resized img rgb).
      * left. exists e. now apply (resize_fails W m image_bytes e img rgb).
    + left. exists e. now apply (convert_fails W m image_bytes e img).
  - left. exists e. now apply open_fails.
Qed.

Lemma preprocess_image_fail (W : Env) (st : State) (image_bytes : list byte) (e : exn) :
  StepFails W (model st) image_bytes e ->
  preprocess_image W image_bytes st =
  (Raise (Exn ValueError ("Failed to process image: " ++ str e)%string),
   opened st image_bytes).
Proof.
  intros HF. unfold preprocess_image.
  rewrite try_except_Exception, (preprocess_steps_fail W st image_bytes e HF).
  reflexivity.
Qed.

Lemma preprocess_image_done (W : Env) (st : State) (image_bytes : list byte) (resized : Image) :
  StepsDone W (model st) image_bytes resized ->
  preprocess_image W image_bytes st =
  (Ok (expand_dims0 (divide_255 (astype_float32 (np_array resized)))),
   opened st image_bytes).
Proof.
  intros HD. unfold preprocess_image.
  rewrite try_except_Exception, (preprocess_steps_done W st image_bytes resized HD).
  reflexivity.
Qed.

(** C10: the grayscale fallback of [preprocess_image] is never taken.
    For every upload that reaches the channel test of lines 168-172
    (the decoder, [convert("RGB")], the target size block and [resize]
    all succeeded) the normalised array has three dimensions and a last
    dimension of 3, so both tests are false, and [preprocess_image]
    returns that very array under a batch axis: a tensor of four
    dimensions [(1, rows, columns, 3)], to which neither [np.stack] nor
    [np.concatenate] was applied. *)
Theorem grayscale_fallback_unreachable
    (W : Env) (st : State) (image_bytes : list byte)
    (img rgb resized : Image) (target_size : Z * Z) :
  Image_open W image_bytes = Ok img ->
  Image_convert W img mode_RGB = Ok rgb ->
  fst (target_size_block st) = Ok target_size ->
  Image_resize W rgb target_size = Ok resized ->
  let img_array := divide_255 (astype_float32 (np_array resized)) in
  ndim img_array = 3
  /\ shape_last img_array = Ok 3
  /\ (ndim img_array =? 2) = false
  /\ (forall d, shape_last img_array = Ok d -> (d =? 1) = false)
  /\ preprocess_steps W image_bytes st
     = (Ok (expand_dims0 img_array), opened st image_bytes)
  /\ preprocess_image W image_bytes st
     = (Ok (expand_dims0 img_array), opened st image_bytes)
  /\ shape (expand_dims0 img_array) = [1; snd target_size; fst target_size; 3]
  /\ expand_dims0 (stack3_last img_array) <> expand_dims0 img_array
  /\ expand_dims0 (concatenate3_last img_array) <> expand_dims0 img_array.
Proof.
  intros Hopen Hconv Htarget Hres img_array.
  destruct (grayscale_fallback_free W img rgb resized target_size Hconv Hres)
    as [Hn Hl].
  fold img_array in Hn, Hl.
  assert (Hshape : shape img_array = [snd target_size; fst target_size; 3]).
  { destruct (Image_convert_mode W img rgb mode_RGB Hconv) as [Hmode _].
    destruct (Image_resize_size W rgb resized target_size Hres) as [Hmode' [Hsize _]].
    unfold img_array. rewrite normalised_shape, np_array_RGB_shape by congruence.
    now rewrite Hsize. }
  assert (HD : StepsDone W (model st) image_bytes resized).
  { rewrite target_size_block_spec in Htarget. cbn [fst] in Htarget.
    inversion Htarget as [Hts].
    apply (steps_done W (model st) image_bytes resized img rgb Hopen Hconv).
    now rewrite Hts. }
  split; [exact Hn |]. split; [exact Hl |].
  split; [now rewrite Hn |].
  split; [intros d Hd; rewrite Hl in Hd; now inversion Hd |].
  split; [exact (preprocess_steps_done W st image_bytes resized HD) |].
  split; [exact (preprocess_image_done W st image_bytes resized HD) |].
  split; [unfold expand_dims0; cbn [shape]; now rewrite Hshape |].
  split.
  - intros Heq. apply (f_equal (fun a => List.length (shape a))) in Heq.
    unfold expand_dims0, stack3_last in Heq. cbn [shape] in Heq.
    rewrite Hshape in Heq. discriminate Heq.
  - intros Heq. apply (f_equal (fun a => shape a)) in Heq.
    unfold expand_dims0, concatenate3_last in Heq. cbn [shape] in Heq.
    rewrite Hshape in Heq. cbn [removelast last app] in Heq.
    inversion Heq.
Qed.

Lemma grayscale_fallback_unreachable_witness :
  exists tensor,
    preprocess_image (Demo.env 2 3) Demo.gray_1x2 (Demo.loaded 2 3)
    = (Ok tensor, opened (Demo.loaded 2 3) Demo.gray_1x2)
    /\ shape tensor = [1; 3; 2; 3].
Proof.
  pose proof (fun img rgb resized target_size =>
                grayscale_fallback_unreachable (Demo.env 2 3) (Demo.loaded 2 3)
                  Demo.gray_1x2 img rgb resized target_size) as H.
  cbv zeta in H.
  edestruct H as [_ [_ [_ [_ [_ [Hi [Hs _]]]]]]];
    [reflexivity | reflexivity | reflexivity | reflexivity |].
  eexists. split; [exact Hi | exact Hs].
Defined.

(** C3: when a step of the preprocessing fails (the decoder rejects the
    bytes, the conversion fails, the resize fails) [preprocess_image]
    raises a [ValueError] that carries the step's message, whatever the
    class of the step's own exception; and an exception that leaves
    [preprocess_image] is always of class [ValueError] exactly. *)
Theorem preprocess_image_raises_only_ValueError
    (W : Env) (st : State) (image_bytes : list byte) :
  (forall e, StepFails W (model st) image_bytes e ->
     fst (preprocess_image W image_bytes st)
     = Raise (Exn ValueError ("Failed to process image: " ++ str e)%string))
  /\ (forall e', fst (preprocess_image W image_bytes st) = Raise e' ->
        class_of e' = ValueError
        /\ exists e, StepFails W (model st) image_bytes e).
Proof.
  split.
  - intros e HF. now rewrite (preprocess_image_fail W st image_bytes e HF).
  - intros e' He'.
    destruct (preprocess_steps_cases W (model st) image_bytes) as [[e HF] | [r HD]].
    + rewrite (preprocess_image_fail W st image_bytes e HF) in He'.
      inversion He'. split; [reflexivity | now exists e].
    + rewrite (preprocess_image_done W st image_bytes r HD) in He'. discriminate.
Qed.

Lemma preprocess_image_raises_only_ValueError_witness :
  fst (preprocess_image (Demo.env 224 224) Demo.not_an_image (Demo.loaded 224 224))
  = Raise (Exn ValueError "Failed to process image: cannot identify image file")
  /\ fst (preprocess_image (Demo.env 224 224) [] Demo.unloaded)
     = Raise (Exn ValueError "Failed to process image: cannot identify image file").
Proof.
  split.
  - apply (proj1 (preprocess_image_raises_only_ValueError (Demo.env 224 224)
                    (Demo.loaded 224 224) Demo.not_an_image)
             (Exn UnidentifiedImageError "cannot identify image file")).
    apply open_fails. reflexivity.
  - apply (proj1 (preprocess_image_raises_only_ValueError (Demo.env 224 224)
                    Demo.unloaded [])
             (Exn UnidentifiedImageError "cannot identify image file")).
    apply open_fails. reflexivity.
Defined.

(** *** The tensor of a valid image *)

Lemma len_from {A} (l : list A) (n : Z) :
  fold_left (fun n _ => n + 1) l n = n + Z.of_nat (List.length l).
Proof.
  revert n. induction l as [| a l IH]; intros n.
  - simpl. lia.
  - cbn [fold_left List.length]. rewrite IH. lia.
Qed.

Lemma len_length {A} (l : list A) : len l = Z.of_nat (List.length l).
Proof. unfold len. rewrite len_from. lia. Qed.

Lemma len_app {A} (l1 l2 : list A) : len (l1 ++ l2) = len l1 + len l2.
Proof. rewrite !len_length, length_app. lia. Qed.

Lemma np_array_length (img : Image) :
  List.length (data (np_array img))
  = (Z.to_nat (snd (im_size img)) * (Z.to_nat (fst (im_size img)) * bands (im_mode img)))%nat.
Proof.
  unfold np_array. destruct (im_size img) as [width height]. simpl.
  rewrite (flat_map_constant_length
             (c := (Z.to_nat width * bands (im_mode img))%nat)).
  - now rewrite length_seq.
  - intros y _.
    rewrite (flat_map_constant_length (c := bands (im_mode img))).
    + now rewrite length_seq.
    + intros x _. now rewrite length_map, length_seq.
Qed.

(** What [preprocess_image] returns for a valid image, with
    [(a, b)] the target size: an array of shape [(1, b, a, 3)] holding
    [b * a * 3] elements, each in the unit interval.  The tuple
    [(a, b)] goes to [resize] as [(width, height)] and the array of the
    resized image has its rows first. *)
Lemma preprocess_image_tensor
    (W : Env) (st : State) (image_bytes : list byte) (resized : Image) :
  StepsDone W (model st) image_bytes resized ->
  exists tensor,
    fst (preprocess_image W image_bytes st) = Ok tensor
    /\ shape tensor = [1; snd (spec_target_size (model st));
                       fst (spec_target_size (model st)); 3]
    /\ len (data tensor)
       = snd (spec_target_size (model st)) * fst (spec_target_size (model st)) * 3
    /\ Forall (fun v => in_unit_interval v = true) (data tensor).
Proof.
  intros HD. eexists.
  rewrite (preprocess_image_done W st image_bytes resized HD).
  destruct HD as [img rgb Ho Hc Hr].
  destruct (Image_convert_mode W img rgb mode_RGB Hc) as [Hmode _].
  destruct (Image_resize_size W rgb resized _ Hr) as [Hmode' [Hsize [Hw Hh]]].
  assert (HRGB : im_mode resized = mode_RGB) by congruence.
  split; [reflexivity |].
  split; [| split].
  - unfold expand_dims0; simpl shape.
    rewrite (np_array_RGB_shape resized HRGB), Hsize. reflexivity.
  - unfold expand_dims0, divide_255, astype_float32; simpl data.
    rewrite len_length, !length_map, np_array_length, HRGB, Hsize. simpl bands.
    rewrite !Nat2Z.inj_mul, !Z2Nat.id by lia. simpl Z.of_nat. lia.
  - apply normalised_in_unit_interval.
Qed.

(** C2 (what the code does when the declared height and width differ):
    with a model whose input shape is [(None, 128, 256, 3)] the target
    size is [(128, 256)], and a valid image comes out as a tensor of
    shape [(1, 256, 128, 3)], not [(1, 128, 256, 3)]: [resize] reads the
    pair as (width, height) while the array has its rows first. *)
Theorem preprocess_image_transposes_declared_shape :
  declared_height_width (model (Demo.loaded 128 256)) = Some (128, 256)
  /\ exists tensor,
       fst (preprocess_image (Demo.env 128 256) Demo.colour_2x1 (Demo.loaded 128 256))
       = Ok tensor
       /\ shape tensor = [1; 256; 128; 3]
       /\ shape tensor <> [1; 128; 256; 3]
       /\ Forall (fun v => in_unit_interval v = true) (data tensor).
Proof.
  split; [reflexivity |].
  assert (HD : exists resized,
             StepsDone (Demo.env 128 256) (model (Demo.loaded 128 256))
                       Demo.colour_2x1 resized).
  { eexists. eapply steps_done; reflexivity. }
  destruct HD as [resized HD].
  destruct (preprocess_image_tensor _ _ _ resized HD) as [tensor [Ht [Hs [_ Hu]]]].
  exists tensor. rewrite Hs.
  split; [exact Ht |]. split; [reflexivity |]. split; [discriminate | exact Hu].
Qed.

(** The same for every model that declares a height [h] and a width [w]
    that differ: the tensor has shape [(1, w, h, 3)]. *)
Lemma preprocess_image_shape_of_declared
    (W : Env) (st : State) (image_bytes : list byte) (resized : Image) (h w : Z) :
  StepsDone W (model st) image_bytes resized ->
  declared_height_width (model st) = Some (h, w) ->
  h <> w ->
  exists tensor,
    fst (preprocess_image W image_bytes st) = Ok tensor
    /\ shape tensor = [1; w; h; 3]
    /\ shape tensor <> [1; h; w; 3].
Proof.
  intros HD Hdecl Hneq.
  destruct (preprocess_image_tensor W st image_bytes resized HD)
    as [tensor [Ht [Hs _]]].
  unfold spec_target_size in Hs. rewrite Hdecl in Hs. cbn [fst snd] in Hs.
  exists tensor. rewrite Hs.
  split; [exact Ht |]. split; [reflexivity |].
  intros H. inversion H. congruence.
Qed.

(** With no model loaded the target is the square default and the
    tensor has shape [(1, 224, 224, 3)]. *)
Lemma preprocess_image_default_shape :
  exists tensor,
    fst (preprocess_image (Demo.env 224 224) Demo.gray_1x2 Demo.unloaded) = Ok tensor
    /\ shape tensor = [1; 224; 224; 3]
    /\ len (data tensor) = 150528
    /\ Forall (fun v => in_unit_interval v = true) (data tensor).
Proof.
  assert (HD : exists resized,
             StepsDone (Demo.env 224 224) (model Demo.unloaded) Demo.gray_1x2 resized).
  { eexists. eapply steps_done; reflexivity. }
  destruct HD as [resized HD].
  destruct (preprocess_image_tensor _ _ _ resized HD) as [tensor [Ht [Hs [Hl Hu]]]].
  exists tensor. rewrite Hs, Hl.
  split; [exact Ht |]. split; [reflexivity |]. split; [reflexivity | exact Hu].
Qed.

(* ================================================================= *)
(** ** [predict]: validation, size check and error mapping *)

Lemma try_except_predict_handlers (body : Py Payload) (st : State) :
  try_except body predict_handlers st = (map_outcome (fst (body st)), snd (body st)).
Proof.
  unfold try_except, predict_handlers, map_outcome.
  destruct (body st) as [[b | e] st']; simpl; trivial.
  destruct (isinstance e ValueError); simpl; trivial.
  rewrite isinstance_Exception. reflexivity.
Qed.


Lemma predict_loaded (W : Env) (file : UploadFile) (st : State) (mdl : Model) :
  model st = Some mdl ->
  is_image_content_type (content_type file) = true ->
  predict W file st = try_except (predict_steps W file) predict_handlers st.
Proof.
  intros Hm Hct. unfold predict, bind.
  rewrite (readiness_gate_loaded W st mdl Hm), Hct. reflexivity.
Qed.

Lemma predict_steps_read (W : Env) (file : UploadFile) (st : State) (contents : list byte) :
  file_read file = Ok contents ->
  predict_steps W file st =
  if len contents >? MAX_FILE_SIZE
  then (Raise (HTTPExn 413 too_large_detail), after_read st)
  else classify W contents (after_read st).
Proof.
  intros Hr. unfold predict_steps, bind, external. rewrite Hr.
  fold (after_read st).
  destruct (len contents >? MAX_FILE_SIZE); reflexivity.
Qed.

(** An upload over the limit, model loaded: the 413 raised by the size
    check is caught by [except Exception] and the request ends as a
    500. *)
Lemma predict_too_large (W : Env) (file : UploadFile) (st : State) (mdl : Model)
    (contents : list byte) :
  model st = Some mdl ->
  is_image_content_type (content_type file) = true ->
  file_read file = Ok contents ->
  MAX_FILE_SIZE < len contents ->
  predict W file st =
  (Raise (HTTPExn 500 ("Prediction failed: " ++ str (HTTPExn 413 too_large_detail))%string),
   after_read st).
Proof.
  intros Hm Hct Hr Hlen.
  rewrite (predict_loaded W file st mdl Hm Hct), try_except_predict_handlers.
  rewrite (predict_steps_read W file st contents Hr).
  replace (len contents >? MAX_FILE_SIZE) with true
    by (symmetry; apply Z.gtb_lt; exact Hlen).
  reflexivity.
Qed.

Lemma len_iter_cons {A} (a : A) (n : N) (l : list A) :
  len (N.iter n (cons a) l) = Z.of_N n + len l.
Proof.
  induction n as [| n IH] using N.peano_ind.
  - reflexivity.
  - rewrite N.iter_succ, N2Z.inj_succ.
    change (a :: N.iter n (cons a) l) with ([a] ++ N.iter n (cons a) l).
    rewrite len_app, IH. change (len [a]) with 1. lia.
Qed.

Lemma len_zeros (n : N) : len (Demo.zeros n) = Z.of_N n.
Proof. unfold Demo.zeros. rewrite len_iter_cons. change (len (@nil byte)) with 0. lia. Qed.

(** C1 (what the code does on an upload over the limit): a JPEG upload
    of 20 MiB + 1 byte with the model loaded is answered with status
    500 and the detail "Prediction failed: 413: File too large. ...",
    not with status 413. *)
Theorem predict_oversized_upload_is_a_500 :
  MAX_FILE_SIZE < len (Demo.zeros 20971521)
  /\ fst (predict (Demo.env 224 224) (Demo.upload "image/jpeg" (Demo.zeros 20971521))
            (Demo.loaded 224 224))
     = Raise (HTTPExn 500 "Prediction failed: 413: File too large. Maximum size is 20.0 MB")
  /\ fst (respond (fst (predict (Demo.env 224 224)
                          (Demo.upload "image/jpeg" (Demo.zeros 20971521))
                          (Demo.loaded 224 224)))) = 500.
Proof.
  assert (Hlen : MAX_FILE_SIZE < len (Demo.zeros 20971521)).
  { rewrite len_zeros. reflexivity. }
  split; [exact Hlen |].
  rewrite (predict_too_large (Demo.env 224 224)
             (Demo.upload "image/jpeg" (Demo.zeros 20971521))
             (Demo.loaded 224 224) (Demo.classifier 224 224) (Demo.zeros 20971521)
             eq_refl eq_refl eq_refl Hlen).
  split; reflexivity.
Qed.

(* ================================================================= *)
(** ** [predict]: the pipeline behind the size check *)





(* ================================================================= *)
(** ** [np.argmax] is an arg-max *)

Lemma compare_cont_spec (p q : positive) :
  CompareSpec (p = q) (p < q)%positive (q < p)%positive (PosDef.Pos.compare_cont Eq p q).
Proof. exact (Pos.compare_spec p q). Qed.

Ltac cmp_cases :=
  repeat match goal with
         | |- context [PosDef.Pos.compare_cont Eq ?a ?b] =>
             destruct (compare_cont_spec a b)
         | H : context [PosDef.Pos.compare_cont Eq ?a ?b] |- _ =>
             destruct (compare_cont_spec a b)
         | |- context [(?a ?= ?b)%positive] =>
             destruct (Pos.compare_spec a b)
         | |- context [?a ?= ?b] =>
             destruct (Z.compare_spec a b)
         | H : context [(?a ?= ?b)%positive] |- _ =>
             destruct (Pos.compare_spec a b)
         | H : context [?a ?= ?b] |- _ =>
             destruct (Z.compare_spec a b)
         end.

Lemma SFleb_false_ltb (x y : spec_float) :
  is_nan x = false -> is_nan y = false ->
  SFleb x y = false -> SFltb y x = true.
Proof.
  unfold SFleb, SFltb, SFcompare.
  destruct x as [sx | sx | | sx mx ex], y as [sy | sy | | sy my ey];
    simpl; intros Hx Hy; try discriminate;
    try (destruct sx); try (destruct sy); try discriminate; try reflexivity;
    intros H; cmp_cases; simpl in *;
    try discriminate; try reflexivity; try lia.
Qed.

Lemma SFleb_ltb_trans (y m x : spec_float) :
  SFleb y m = true -> SFltb m x = true -> SFltb y x = true.
Proof.
  unfold SFleb, SFltb, SFcompare.
  destruct y as [sy | sy | | sy my ey], m as [sm | sm | | sm mm em],
           x as [sx | sx | | sx mx ex];
    simpl; try discriminate;
    try (destruct sy); try (destruct sm); try (destruct sx);
    try discriminate; try reflexivity;
    intros H1 H2; cmp_cases; simpl in *;
    try discriminate; try reflexivity; try lia.
Qed.

Lemma SFltb_leb (x y : spec_float) : SFltb x y = true -> SFleb x y = true.
Proof.
  unfold SFltb, SFleb. destruct (SFcompare x y) as [[| |] |]; auto.
Qed.

Lemma SFleb_refl (x : spec_float) : is_nan x = false -> SFleb x x = true.
Proof.
  unfold SFleb, SFcompare.
  destruct x as [s | s | | s m e]; simpl; intros H; try discriminate;
    try (destruct s); try reflexivity;
    cmp_cases; simpl; try reflexivity; lia.
Qed.

Lemma argmax_scan_first_maximum (l : list spec_float) :
  forall (seen : list spec_float) (mp : spec_float) (best : nat),
    no_nan (seen ++ l) ->
    first_maximum seen best mp ->
    exists m, first_maximum (seen ++ l) (argmax_scan mp best (List.length seen) l) m.
Proof.
  induction l as [| x l IH]; intros seen mp best Hnan [Hbest [Hle Hlt]].
  - exists mp. rewrite app_nil_r. simpl. repeat split; assumption.
  - assert (Hx : is_nan x = false) by (apply Hnan, in_or_app; right; now left).
    assert (Hmp : is_nan mp = false)
      by (apply Hnan, in_or_app; left; eapply nth_error_In; eassumption).
    assert (Hbl : (best < List.length seen)%nat)
      by (apply nth_error_Some; congruence).
    replace (seen ++ x :: l) with ((seen ++ [x]) ++ l) in *
      by (now rewrite <- app_assoc).
    assert (Hlen : S (List.length seen) = List.length (seen ++ [x]))
      by (rewrite length_app; simpl; lia).
    cbn [argmax_scan]. rewrite Hx, Hlen.
    destruct (SFleb x mp) eqn:Hcmp; cbn [negb].
    + apply IH; trivial. split; [| split].
      * rewrite nth_error_app1; assumption.
      * intros p Hp. apply in_app_or in Hp. destruct Hp as [Hp | [<- | []]]; auto.
      * intros j p Hj Hp. apply (Hlt j p Hj).
        rewrite nth_error_app1 in Hp by lia. exact Hp.
    + pose proof (SFleb_false_ltb x mp Hx Hmp Hcmp) as Hgt.
      apply IH; trivial. split; [| split].
      * rewrite nth_error_app2, Nat.sub_diag by lia. reflexivity.
      * intros p Hp. apply in_app_or in Hp. destruct Hp as [Hp | [<- | []]].
        -- apply SFltb_leb, (SFleb_ltb_trans p mp x); auto.
        -- now apply SFleb_refl.
      * intros j p Hj Hp. rewrite nth_error_app1 in Hp by lia.
        apply (SFleb_ltb_trans p mp x); trivial.
        apply Hle. eapply nth_error_In; eassumption.
Qed.

(** On a vector without NaN, [np.argmax] returns the position of the
    first maximum. *)
Lemma np_argmax_first_maximum (l : list spec_float) (r : nat) :
  np_argmax l = Ok r -> no_nan l -> exists m, first_maximum l r m.
Proof.
  destruct l as [| x l]; [discriminate |].
  intros H Hnan. simpl in H.
  assert (Hx : is_nan x = false) by (apply Hnan; now left).
  rewrite Hx in H. inversion H as [Hr].
  apply (argmax_scan_first_maximum l [x] x 0); trivial.
  split; [reflexivity | split].
  - intros p [<- | []]. now apply SFleb_refl.
  - intros j p Hj. lia.
Qed.

(** [np.argmax] answers a position of the vector. *)
Lemma argmax_scan_bound (l : list spec_float) :
  forall mp best i, (best < i)%nat ->
    (argmax_scan mp best i l < i + List.length l)%nat.
Proof.
  induction l as [| x l IH]; intros mp best i Hb; simpl.
  - lia.
  - destruct (negb (SFleb x mp)).
    + destruct (is_nan x); [lia |].
      specialize (IH x i (S i)). lia.
    + specialize (IH mp best (S i)). lia.
Qed.

Lemma np_argmax_bound (l : list spec_float) (r : nat) :
  np_argmax l = Ok r -> (r < List.length l)%nat.
Proof.
  destruct l as [| x l]; [discriminate |].
  simpl. intros H. inversion H.
  destruct (is_nan x); [lia |].
  pose proof (argmax_scan_bound l x 0 1). lia.
Qed.

(* ================================================================= *)
(** ** The payload of a successful prediction *)

Lemma assemble_response_ok (predictions : list (list float32)) (st : State) (body : Payload) :
  fst (assemble_response predictions st) = Ok body ->
  exists probabilities index label,
    nth_error predictions 0 = Some probabilities
    /\ np_argmax probabilities = Ok index
    /\ nth_error LABELS index = Some label
    /\ body = [("label"%string, JStr label);
               ("index"%string, JInt (Z.of_nat index));
               ("probabilities"%string, JFloats probabilities)].
Proof.
  unfold assemble_response, bind, lift, ret, list_getitem.
  destruct (nth_error predictions 0) as [row |] eqn:Hrow; [| discriminate].
  destruct (np_argmax row) as [i |] eqn:Hi; [| discriminate].
  destruct (nth_error LABELS i) as [label |] eqn:Hlabel; [| discriminate].
  destruct (nth_error row i); [| discriminate].
  destruct (enumerate_labels 0 row); [| discriminate].
  simpl. intros H. inversion H.
  exists row, i, label. auto.
Qed.

Lemma classify_ok (W : Env) (contents : list byte) (st : State) (body : Payload) :
  fst (classify W contents st) = Ok body ->
  exists predictions st', fst (assemble_response predictions st') = Ok body.
Proof.
  unfold classify, bind.
  destruct (preprocess_image W contents st) as [[img_array | e] st1]; [| discriminate].
  destruct (predict_async img_array st1) as [[predictions | e] st2]; [| discriminate].
  intros H. now exists predictions, st2.
Qed.

Lemma predict_ok (W : Env) (file : UploadFile) (st : State) (body : Payload) :
  fst (predict W file st) = Ok body ->
  exists predictions st', fst (assemble_response predictions st') = Ok body.
Proof.
  unfold predict, bind.
  destruct (readiness_gate W st) as [[[] | e] st1]; [| discriminate].
  destruct (negb (is_image_content_type (content_type file))); [discriminate |].
  rewrite try_except_predict_handlers. cbn [fst].
  unfold predict_steps, bind, external.
  destruct (file_read file) as [contents | e].
  - destruct (len contents >? MAX_FILE_SIZE).
    + discriminate.
    + set (st2 := mk_State _ _ _).
      destruct (fst (classify W contents st2)) as [b | e] eqn:Hc.
      * simpl. intros H. inversion H; subst. exact (classify_ok W contents st2 body Hc).
      * simpl. destruct (isinstance e ValueError); discriminate.
  - simpl. destruct (isinstance e ValueError); discriminate.
Qed.

(** C8: the dict [predict] returns has the three keys [label], [index],
    [probabilities], in that order and no other (so no confidence
    entry); [index] is what [np.argmax] returns on [probabilities], a
    position of that vector below 3, and, when the vector holds no NaN,
    the position of its first maximum; [label] is the entry of [LABELS]
    at [index].  The response is a 200 with that dict as body exactly
    when all the probabilities are finite, and a 200 carries no other
    body; a dict holding a NaN or an infinity does not render and is
    answered 500. *)
Theorem predict_success_payload
    (W : Env) (file : UploadFile) (st : State) (body : Payload) :
  fst (predict W file st) = Ok body ->
  exists label index probabilities,
    respond (fst (predict W file st))
    = (if forallb is_finite probabilities then (200, body)
       else (500, [("detail"%string, JStr "Internal Server Error")]))
    /\ (forall body', respond (fst (predict W file st)) = (200, body') -> body' = body)
    /\ body = [("label"%string, JStr label);
               ("index"%string, JInt (Z.of_nat index));
               ("probabilities"%string, JFloats probabilities)]
    /\ map fst body = ["label"; "index"; "probabilities"]%string
    /\ ~ In "confidence"%string (map fst body)
    /\ np_argmax probabilities = Ok index
    /\ (index < List.length probabilities)%nat
    /\ (no_nan probabilities -> exists m, first_maximum probabilities index m)
    /\ nth_error LABELS index = Some label
    /\ LABELS = ["Semilooper"; "Spodoptera"; "Healthy Leaf"]%string.
Proof.
  intros Hok.
  destruct (predict_ok W file st body Hok) as [predictions [st' Ha]].
  destruct (assemble_response_ok predictions st' body Ha)
    as [probabilities [index [label [_ [Hidx [Hlabel Hbody]]]]]].
  exists label, index, probabilities.
  rewrite Hok. subst body.
  assert (Hrender : renders [("label"%string, JStr label);
                             ("index"%string, JInt (Z.of_nat index));
                             ("probabilities"%string, JFloats probabilities)]
                    = forallb is_finite probabilities).
  { unfold renders. cbn [forallb snd json_compliant].
    now rewrite andb_true_r. }
  cbn [map fst respond]. rewrite Hrender.
  split; [reflexivity |].
  split.
  { intros body'. destruct (forallb is_finite probabilities); intros H; inversion H.
    reflexivity. }
  split; [reflexivity |]. split; [reflexivity |].
  split.
  { intros [H | [H | [H | []]]]; discriminate. }
  split; [exact Hidx |].
  split; [exact (np_argmax_bound probabilities index Hidx) |].
  split; [exact (np_argmax_first_maximum probabilities index Hidx) |].
  split; [exact Hlabel | reflexivity].
Qed.

Lemma predict_success_payload_witness :
  exists label index probabilities,
    respond (fst (predict (Demo.env 2 3) (Demo.upload "image/jpeg" Demo.colour_2x1)
                    Demo.unloaded))
    = (200, [("label"%string, JStr "Spodoptera");
             ("index"%string, JInt 1);
             ("probabilities"%string, JFloats Demo.scores)])
    /\ [("label"%string, JStr "Spodoptera");
        ("index"%string, JInt 1);
        ("probabilities"%string, JFloats Demo.scores)]
       = [("label"%string, JStr label);
          ("index"%string, JInt (Z.of_nat index));
          ("probabilities"%string, JFloats probabilities)]
    /\ np_argmax probabilities = Ok index
    /\ nth_error LABELS index = Some label.
Proof.
  destruct (predict_success_payload (Demo.env 2 3)
              (Demo.upload "image/jpeg" Demo.colour_2x1) Demo.unloaded
              [("label"%string, JStr "Spodoptera");
               ("index"%string, JInt 1);
               ("probabilities"%string, JFloats Demo.scores)])
    as [label [index [probabilities [_ [_ [H2 [_ [_ [H3 [_ [_ [H4 _]]]]]]]]]]]].
  - vm_compute. reflexivity.
  - exists label, index, probabilities.
    split; [vm_compute; reflexivity |].
    split; [exact H2 |]. split; [exact H3 | exact H4].
Defined.

(* ================================================================= *)
(** ** Which computations write the globals *)

Lemma keeps_ret {A} (a : A) : keeps_globals (ret a).
Proof. intros st. split; reflexivity. Qed.

Lemma keeps_raise {A} (e : exn) : keeps_globals (@raise A e).
Proof. intros st. split; reflexivity. Qed.

Lemma keeps_lift {A} (r : Res A) : keeps_globals (lift r).
Proof. intros st. split; reflexivity. Qed.

Lemma keeps_external {A} (c : Call) (r : Res A) : keeps_globals (external c r).
Proof. intros st. split; reflexivity. Qed.

Lemma keeps_get_model : keeps_globals get_model.
Proof. intros st. split; reflexivity. Qed.

Lemma keeps_bind {A B} (m : Py A) (k : A -> Py B) :
  keeps_globals m -> (forall a, keeps_globals (k a)) -> keeps_globals (bind m k).
Proof.
  intros Hm Hk st. unfold bind.
  destruct (Hm st) as [H1 H2].
  destruct (m st) as [[a | e] st']; simpl in H1, H2.
  - destruct (Hk a st') as [H3 H4]. split; congruence.
  - split; assumption.
Qed.

Lemma keeps_try_except {A} (body : Py A) (handlers : list (ExnClass * (exn -> Py A))) :
  keeps_globals body ->
  Forall (fun h => forall e, keeps_globals (snd h e)) handlers ->
  keeps_globals (try_except body handlers).
Proof.
  intros Hb Hh st. unfold try_except.
  destruct (Hb st) as [H1 H2].
  destruct (body st) as [[a | e] st']; simpl in H1, H2; [split; assumption |].
  destruct (find (fun h => isinstance e (fst h)) handlers) as [h |] eqn:Hf.
  - apply find_some in Hf. destruct Hf as [Hin _].
    rewrite Forall_forall in Hh.
    destruct (Hh h Hin e st') as [H3 H4]. split; congruence.
  - split; assumption.
Qed.

Create HintDb globals.
#[local] Hint Resolve keeps_ret keeps_raise keeps_lift keeps_external
  keeps_get_model : globals.

Ltac keep_globals :=
  repeat first
    [ progress auto with globals
    | apply keeps_bind; [| intros ?]
    | apply keeps_try_except
    | apply Forall_cons; [intros ? |]
    | apply Forall_nil
    | match goal with
      | |- keeps_globals (if ?b then _ else _) => destruct b
      | |- keeps_globals (match ?x with _ => _ end) => destruct x
      end ].

Lemma keeps_target_size_block : keeps_globals target_size_block.
Proof. unfold target_size_block. keep_globals. Qed.

Lemma keeps_preprocess_image (W : Env) (image_bytes : list byte) :
  keeps_globals (preprocess_image W image_bytes).
Proof.
  unfold preprocess_image, preprocess_steps.
  pose proof keeps_target_size_block. keep_globals.
Qed.

Lemma keeps_predict_async (img_array : ndarray float32) :
  keeps_globals (predict_async img_array).
Proof. unfold predict_async. keep_globals. Qed.

Lemma keeps_assemble_response (predictions : list (list float32)) :
  keeps_globals (assemble_response predictions).
Proof. unfold assemble_response. keep_globals. Qed.

Lemma keeps_classify (W : Env) (contents : list byte) :
  keeps_globals (classify W contents).
Proof.
  unfold classify.
  pose proof (keeps_preprocess_image W contents).
  pose proof keeps_predict_async. pose proof keeps_assemble_response.
  keep_globals.
Qed.

Lemma keeps_predict_steps (W : Env) (file : UploadFile) :
  keeps_globals (predict_steps W file).
Proof.
  unfold predict_steps. pose proof (keeps_classify W). keep_globals.
Qed.

(** What follows the readiness gate in [predict] writes no global. *)
Lemma keeps_after_gate (W : Env) (file : UploadFile) :
  keeps_globals
    (if negb (is_image_content_type (content_type file)) then
       raise (HTTPExn 400 ("Invalid file type: " ++ format_content_type (content_type file)
                             ++ ". Must be an image.")%string)
     else try_except (predict_steps W file) predict_handlers).
Proof.
  pose proof (keeps_predict_steps W file). unfold predict_handlers. keep_globals.
Qed.

Lemma predict_globals (W : Env) (file : UploadFile) (st : State) :
  model (snd (predict W file st)) = model (snd (readiness_gate W st))
  /\ model_load_error (snd (predict W file st))
     = model_load_error (snd (readiness_gate W st)).
Proof.
  unfold predict, bind.
  destruct (readiness_gate W st) as [[[] | e] st1]; [| split; reflexivity].
  apply (keeps_after_gate W file st1).
Qed.

(* ================================================================= *)
(** ** Loading: on demand and at startup *)

(** X1: [load_model_safe] never raises.  When it answers [True] the
    model is loaded; when it answers [False] the handle was empty on
    entry and an error message is recorded on exit. *)
Theorem load_model_safe_outcome (W : Env) (st : State) :
  exists ok,
    fst (load_model_safe W st) = Ok ok
    /\ (ok = true -> model (snd (load_model_safe W st)) <> None)
    /\ (ok = false ->
        model st = None
        /\ exists err, model_load_error (snd (load_model_safe W st)) = Some err).
Proof.
  destruct (model st) as [mdl |] eqn:Hm.
  - rewrite (load_model_safe_loaded W st mdl Hm). exists true. cbn [fst snd].
    split; [reflexivity |]. split; [intros _; congruence | discriminate].
  - destruct (load_model_safe_cases W st Hm); eexists; cbn [fst snd model model_load_error];
      (split; [reflexivity |]); split; intros Hanswer; try discriminate;
      try (split; [reflexivity | eexists; reflexivity]).
Qed.

(** X2: with no artifact at [MODEL_PATH], an on-demand load answers
    [False], records "Model file not found at <path>", leaves the
    handle empty and does not call the Keras loader. *)
Theorem load_model_safe_missing_artifact (W : Env) (st : State) :
  model st = None ->
  os_path_exists W = false ->
  load_model_safe W st
  = (Ok false,
     mk_State None (Some ("Model file not found at " ++ MODEL_PATH W)%string)
              (calls st ++ [call_path_exists])).
Proof.
  intros Hm Hex.
  destruct (load_model_safe_cases W st Hm); congruence.
Qed.

Lemma load_model_safe_missing_artifact_witness :
  load_model_safe Demo.env_no_artifact Demo.unloaded
  = (Ok false,
     mk_State None (Some "Model file not found at model.keras"%string) [call_path_exists]).
Proof.
  apply (load_model_safe_missing_artifact Demo.env_no_artifact Demo.unloaded);
    reflexivity.
Defined.

(** X3: when the Keras loader raises, an on-demand load answers [False],
    records the text of the exception whatever its class, and leaves
    the handle empty, so that a later request tries again. *)
Theorem load_model_safe_loader_raises (W : Env) (st : State) (e : exn) :
  model st = None ->
  os_path_exists W = true ->
  keras_load_model W = Raise e ->
  load_model_safe W st
  = (Ok false,
     mk_State None (Some (str e)) (calls st ++ [call_path_exists; call_load_model])).
Proof.
  intros Hm Hex Hload.
  destruct (load_model_safe_cases W st Hm) as [H | e' H H' | mdl e' H H' | mdl H H'];
    try congruence.
  rewrite Hload in H'. inversion H'. now rewrite <- app_assoc.
Qed.

Lemma load_model_safe_loader_raises_witness :
  load_model_safe
    (mk_Env "model.keras" true (Raise (Exn OSError "not a keras archive"))
            Demo.open Demo.convert_data Demo.resample)
    Demo.unloaded
  = (Ok false,
     mk_State None (Some "not a keras archive"%string) [call_path_exists; call_load_model]).
Proof.
  apply (load_model_safe_loader_raises
           (mk_Env "model.keras" true (Raise (Exn OSError "not a keras archive"))
                   Demo.open Demo.convert_data Demo.resample)
           Demo.unloaded (Exn OSError "not a keras archive"));
    reflexivity.
Defined.

(** The outcomes of startup, by what the collaborators answer. *)
Lemma startup_absent (W : Env) (getsize : Res Z) (st : State) :
  os_path_exists W = false ->
  lifespan_startup W getsize st
  = (Ok tt, mk_State (model st) (Some ("Model file not found at " ++ MODEL_PATH W)%string)
                     (calls st ++ [call_path_exists])).
Proof.
  intros Hex. unfold lifespan_startup. rewrite try_except_Exception.
  unfold bind, external. rewrite Hex. reflexivity.
Qed.

Lemma startup_getsize_raises (W : Env) (e : exn) (st : State) :
  os_path_exists W = true ->
  lifespan_startup W (Raise e) st
  = (Ok tt, mk_State (model st) (Some (str e)) (calls st ++ [call_path_exists])).
Proof.
  intros Hex. unfold lifespan_startup. rewrite try_except_Exception.
  unfold bind, external. rewrite Hex. reflexivity.
Qed.

Lemma startup_loader_raises (W : Env) (n : Z) (e : exn) (st : State) :
  os_path_exists W = true ->
  keras_load_model W = Raise e ->
  lifespan_startup W (Ok n) st
  = (Ok tt, mk_State (model st) (Some (str e))
                     (calls st ++ [call_path_exists; call_load_model])).
Proof.
  intros Hex Hload. unfold lifespan_startup. rewrite try_except_Exception.
  unfold bind at 1, external. rewrite Hex. cbn [negb].
  unfold bind at 1, lift. rewrite try_except_Exception.
  unfold bind, external. rewrite Hload.
  unfold set_model_load_error; cbn [model model_load_error calls].
  now rewrite <- app_assoc.
Qed.

Lemma startup_loaded (W : Env) (n : Z) (mdl : Model) (st : State) :
  os_path_exists W = true ->
  keras_load_model W = Ok mdl ->
  lifespan_startup W (Ok n) st
  = (Ok tt,
     mk_State (Some mdl)
       match getattr (input_shape mdl) "input_shape" with
       | Raise e => Some (str e)
       | Ok _ =>
           match getattr (output_shape mdl) "output_shape" with
           | Raise e => Some (str e)
           | Ok _ => None
           end
       end
       (calls st ++ [call_path_exists; call_load_model])).
Proof.
  intros Hex Hload. unfold lifespan_startup. rewrite try_except_Exception.
  unfold bind at 1, external. rewrite Hex. cbn [negb].
  unfold bind at 1, lift. rewrite try_except_Exception.
  unfold bind, external, set_model, set_model_load_error, lift. rewrite Hload.
  cbn [model model_load_error calls]. rewrite <- app_assoc.
  destruct (getattr (input_shape mdl) "input_shape") as [v1 | e1]; [| reflexivity].
  destruct (getattr (output_shape mdl) "output_shape") as [v2 | e2]; reflexivity.
Qed.

(** X4: startup always completes, so the server starts whatever the
    state of the artifact; on the fresh globals it ends with the model
    loaded or with an error message recorded, and the model is loaded
    exactly when the artifact is there, its size can be read and the
    Keras loader returns it. *)
Theorem lifespan_startup_always_completes (W : Env) (getsize : Res Z) :
  fst (lifespan_startup W getsize fresh) = Ok tt
  /\ (model (snd (lifespan_startup W getsize fresh)) <> None
      \/ model_load_error (snd (lifespan_startup W getsize fresh)) <> None)
  /\ (forall mdl,
        model (snd (lifespan_startup W getsize fresh)) = Some mdl
        <-> os_path_exists W = true
            /\ (exists n, getsize = Ok n)
            /\ keras_load_model W = Ok mdl).
Proof.
  destruct (os_path_exists W) eqn:Hex.
  - destruct getsize as [n | e].
    + destruct (keras_load_model W) as [mdl | e] eqn:Hload.
      * rewrite (startup_loaded W n mdl fresh Hex Hload). cbn [fst snd model].
        split; [reflexivity |]. split; [left; discriminate |].
        intros mdl'. split.
        -- intros H. inversion H. split; [reflexivity |]. split; [now exists n | reflexivity].
        -- intros [_ [_ H]]. inversion H. reflexivity.
      * rewrite (startup_loader_raises W n e fresh Hex Hload).
        cbn [fst snd model model_load_error fresh].
        split; [reflexivity |]. split; [right; discriminate |].
        intros mdl'. split; [discriminate |]. intros [_ [_ H]]. discriminate.
    + rewrite (startup_getsize_raises W e fresh Hex).
      cbn [fst snd model model_load_error fresh].
      split; [reflexivity |]. split; [right; discriminate |].
      intros mdl'. split; [discriminate |]. intros [_ [[n H] _]]. discriminate.
  - rewrite (startup_absent W getsize fresh Hex).
    cbn [fst snd model model_load_error fresh].
    split; [reflexivity |]. split; [right; discriminate |].
    intros mdl'. split; [discriminate |]. intros [H _]. discriminate.
Qed.

(** X5: when the size of the artifact cannot be read, startup records
    that error and goes on without calling the Keras loader; the model
    stays unloaded until a request loads it. *)
Theorem lifespan_startup_size_unreadable (W : Env) (e : exn) :
  os_path_exists W = true ->
  lifespan_startup W (Raise e) fresh
  = (Ok tt, mk_State None (Some (str e)) [call_path_exists]).
Proof.
  intros Hex. exact (startup_getsize_raises W e fresh Hex).
Qed.

Lemma lifespan_startup_size_unreadable_witness :
  lifespan_startup (Demo.env 224 224) (Raise (Exn OSError "Permission denied")) fresh
  = (Ok tt, mk_State None (Some "Permission denied"%string) [call_path_exists]).
Proof.
  apply (lifespan_startup_size_unreadable (Demo.env 224 224)
           (Exn OSError "Permission denied")).
  reflexivity.
Defined.



(* ================================================================= *)
(** ** The handle over the life of the process *)

Lemma readiness_gate_state (W : Env) (st : State) :
  snd (readiness_gate W st)
  = match model st with
    | Some _ => st
    | None => snd (load_model_safe W st)
    end.
Proof.
  destruct (model st) as [mdl |] eqn:Hm.
  - now rewrite (readiness_gate_loaded W st mdl Hm).
  - rewrite (readiness_gate_unloaded W st Hm).
    destruct (load_model_safe W st) as [[[|] | e] st']; reflexivity.
Qed.

Lemma load_leaves_handle_or_error (W : Env) (st : State) :
  model st = None ->
  model (snd (load_model_safe W st)) <> None
  \/ model_load_error (snd (load_model_safe W st)) <> None.
Proof.
  intros Hm.
  destruct (load_model_safe_cases W st Hm); cbn [snd model model_load_error];
    try (right; discriminate); left; discriminate.
Qed.

Lemma startup_leaves_handle_or_error (W : Env) (getsize : Res Z) :
  model (snd (lifespan_startup W getsize fresh)) <> None
  \/ model_load_error (snd (lifespan_startup W getsize fresh)) <> None.
Proof.
  destruct (os_path_exists W) eqn:Hex.
  - destruct getsize as [n | e].
    + destruct (keras_load_model W) as [mdl | e] eqn:Hload.
      * rewrite (startup_loaded W n mdl fresh Hex Hload). left. discriminate.
      * rewrite (startup_loader_raises W n e fresh Hex Hload). right. discriminate.
    + rewrite (startup_getsize_raises W e fresh Hex). right. discriminate.
  - rewrite (startup_absent W getsize fresh Hex). right. discriminate.
Qed.

(** X7: the handle is written once.  With the model loaded, a request
    to [predict] leaves both globals as they are, whatever the upload
    and however the request ends: the model object is the same and a
    recorded error stays recorded. *)
Theorem predict_keeps_loaded_model
    (W : Env) (file : UploadFile) (st : State) (mdl : Model) :
  model st = Some mdl ->
  model (snd (predict W file st)) = Some mdl
  /\ model_load_error (snd (predict W file st)) = model_load_error st.
Proof.
  intros Hm.
  destruct (predict_globals W file st) as [H1 H2].
  rewrite readiness_gate_state, Hm in H1, H2.
  split; congruence.
Qed.

Lemma predict_keeps_loaded_model_witness :
  model (snd (predict (Demo.env 2 3) (Demo.upload "image/png" Demo.not_an_image)
                (Demo.loaded 2 3)))
  = Some (Demo.classifier 2 3)
  /\ model_load_error (snd (predict (Demo.env 2 3)
                              (Demo.upload "image/png" Demo.not_an_image)
                              (Demo.loaded 2 3)))
     = model_load_error (Demo.loaded 2 3).
Proof.
  apply (predict_keeps_loaded_model (Demo.env 2 3)
           (Demo.upload "image/png" Demo.not_an_image) (Demo.loaded 2 3)
           (Demo.classifier 2 3)).
  reflexivity.
Defined.

(** X8: in every state the process reaches (startup, then any sequence
    of requests to [/health] and [/predict], each with its own
    collaborators) the model is loaded or an error message is
    recorded: an empty handle always comes with the reason. *)
Theorem reachable_handle_or_error (st : State) :
  Reachable st ->
  model st <> None \/ model_load_error st <> None.
Proof.
  induction 1 as [W getsize | st HR IH | W file st HR IH].
  - apply startup_leaves_handle_or_error.
  - exact IH.
  - destruct (predict_globals W file st) as [H1 H2].
    rewrite readiness_gate_state in H1, H2. rewrite H1, H2.
    destruct (model st) as [mdl |] eqn:Hm.
    + rewrite Hm. left. discriminate.
    + apply (load_leaves_handle_or_error W st Hm).
Qed.

Lemma reachable_handle_or_error_witness :
  model (snd (predict Demo.env_no_artifact (Demo.upload "image/jpeg" Demo.colour_2x1)
                (snd (lifespan_startup Demo.env_no_artifact (Ok 0) fresh)))) <> None
  \/ model_load_error
       (snd (predict Demo.env_no_artifact (Demo.upload "image/jpeg" Demo.colour_2x1)
               (snd (lifespan_startup Demo.env_no_artifact (Ok 0) fresh)))) <> None.
Proof.
  apply (reachable_handle_or_error
           (snd (predict Demo.env_no_artifact (Demo.upload "image/jpeg" Demo.colour_2x1)
                   (snd (lifespan_startup Demo.env_no_artifact (Ok 0) fresh))))).
  apply reach_predict, reach_startup.
Defined.

(** X9: a request that finds the handle empty and loads the model
    successfully is answered exactly as the same request on the state
    the load left: the lazy load is invisible in the answer, and the
    model stays loaded for the requests that follow. *)
Theorem predict_lazy_load (W : Env) (file : UploadFile) (st : State) :
  model st = None ->
  fst (load_model_safe W st) = Ok true ->
  predict W file st = predict W file (snd (load_model_safe W st))
  /\ model (snd (predict W file st)) <> None.
Proof.
  intros Hm Hok.
  assert (Hloaded : exists mdl, model (snd (load_model_safe W st)) = Some mdl).
  { destruct (load_model_safe_cases W st Hm); cbn [fst] in Hok; try discriminate.
    eexists. reflexivity. }
  destruct Hloaded as [mdl Hmdl].
  assert (Heq : predict W file st = predict W file (snd (load_model_safe W st))).
  { unfold predict, bind.
    rewrite (readiness_gate_unloaded W st Hm),
            (readiness_gate_loaded W _ mdl Hmdl).
    destruct (load_model_safe W st) as [[[|] | e] st']; cbn [fst] in Hok;
      try discriminate; reflexivity. }
  split; [exact Heq |].
  rewrite Heq.
  destruct (predict_globals W file (snd (load_model_safe W st))) as [H1 _].
  rewrite H1, readiness_gate_state, Hmdl, Hmdl. discriminate.
Qed.

Lemma predict_lazy_load_witness :
  predict (Demo.env 2 3) (Demo.upload "image/jpeg" Demo.colour_2x1) Demo.failed
  = predict (Demo.env 2 3) (Demo.upload "image/jpeg" Demo.colour_2x1)
      (snd (load_model_safe (Demo.env 2 3) Demo.failed))
  /\ model (snd (predict (Demo.env 2 3) (Demo.upload "image/jpeg" Demo.colour_2x1)
                   Demo.failed)) <> None.
Proof.
  apply (predict_lazy_load (Demo.env 2 3) (Demo.upload "image/jpeg" Demo.colour_2x1)
           Demo.failed); reflexivity.
Defined.

(* ================================================================= *)
(** ** [predict]: how each stage ends a request *)

(** X10: with the model available, an upload whose content type is
    missing, empty or does not start with "image/" is answered 400 with
    a detail that names the type and contains "Invalid file type"; the
    state is as before, so the body is never read. *)
Theorem predict_rejects_content_type
    (W : Env) (file : UploadFile) (st : State) (mdl : Model) :
  model st = Some mdl ->
  is_image_content_type (content_type file) = false ->
  predict W file st
  = (Raise (HTTPExn 400 ("Invalid file type: " ++ format_content_type (content_type file)
                           ++ ". Must be an image.")%string), st)
  /\ Contains ("Invalid file type: " ++ format_content_type (content_type file)
                 ++ ". Must be an image.")%string "Invalid file type".
Proof.
  intros Hm Hct. split.
  - unfold predict, bind. rewrite (readiness_gate_loaded W st mdl Hm), Hct. reflexivity.
  - exists EmptyString. eexists. reflexivity.
Qed.

Lemma predict_rejects_content_type_witness :
  predict (Demo.env 2 3) (Demo.upload "text/plain" Demo.not_an_image) (Demo.loaded 2 3)
  = (Raise (HTTPExn 400 "Invalid file type: text/plain. Must be an image."),
     Demo.loaded 2 3)
  /\ predict (Demo.env 2 3) (mk_UploadFile None None (Ok Demo.colour_2x1)) (Demo.loaded 2 3)
     = (Raise (HTTPExn 400 "Invalid file type: None. Must be an image."),
        Demo.loaded 2 3).
Proof.
  split.
  - apply (predict_rejects_content_type (Demo.env 2 3)
             (Demo.upload "text/plain" Demo.not_an_image) (Demo.loaded 2 3)
             (Demo.classifier 2 3)); reflexivity.
  - apply (predict_rejects_content_type (Demo.env 2 3)
             (mk_UploadFile None None (Ok Demo.colour_2x1)) (Demo.loaded 2 3)
             (Demo.classifier 2 3)); reflexivity.
Defined.

(** X11: when reading the upload raises, the request ends there: the
    answer is a 500 carrying the text of the exception (a 400 if the
    exception is a [ValueError]) and the decoder is not called. *)
Theorem predict_read_raises
    (W : Env) (file : UploadFile) (st : State) (mdl : Model) (e : exn) :
  model st = Some mdl ->
  is_image_content_type (content_type file) = true ->
  file_read file = Raise e ->
  predict W file st
  = (Raise (if isinstance e ValueError then HTTPExn 400 (str e)
            else HTTPExn 500 ("Prediction failed: " ++ str e)%string),
     after_read st).
Proof.
  intros Hm Hct Hr.
  rewrite (predict_loaded W file st mdl Hm Hct), try_except_predict_handlers.
  unfold predict_steps, bind, external. rewrite Hr. cbn [fst snd map_outcome].
  destruct (isinstance e ValueError); reflexivity.
Qed.

Lemma predict_read_raises_witness :
  predict (Demo.env 2 3)
    (mk_UploadFile (Some "image/png"%string) None (Raise (Exn OSError "client disconnected")))
    (Demo.loaded 2 3)
  = (Raise (HTTPExn 500 "Prediction failed: client disconnected"),
     after_read (Demo.loaded 2 3)).
Proof.
  apply (predict_read_raises (Demo.env 2 3)
           (mk_UploadFile (Some "image/png"%string) None
                          (Raise (Exn OSError "client disconnected")))
           (Demo.loaded 2 3) (Demo.classifier 2 3)
           (Exn OSError "client disconnected")); reflexivity.
Defined.

Lemma preprocess_image_state (W : Env) (image_bytes : list byte) (st : State) :
  snd (preprocess_image W image_bytes st) = opened st image_bytes.
Proof.
  destruct (preprocess_steps_cases W (model st) image_bytes) as [[e HF] | [r HD]].
  - now rewrite (preprocess_image_fail W st image_bytes e HF).
  - now rewrite (preprocess_image_done W st image_bytes r HD).
Qed.









(** *** The answer by the scores the model returns *)








(* ================================================================= *)
(** ** [predict]: the outcomes and the order of the stages *)

Lemma map_outcome_http (r : Res Payload) :
  (exists body, map_outcome r = Ok body)
  \/ (exists status_code detail,
        map_outcome r = Raise (HTTPExn status_code detail)
        /\ (status_code = 400 \/ status_code = 500)).
Proof.
  destruct r as [b | e]; cbn [map_outcome].
  - left. now exists b.
  - right. destruct (isinstance e ValueError); eexists; eexists; split;
      try reflexivity; auto.
Qed.

(** X15: nothing but an HTTP outcome leaves [predict].  In every state
    and with every upload and collaborators, the handler returns a
    payload or raises an [HTTPException] whose status is 400, 500 or
    503; no other exception escapes and no other status is produced
    (in particular never 413). *)
Theorem predict_only_http_outcomes (W : Env) (file : UploadFile) (st : State) :
  (exists body, fst (predict W file st) = Ok body)
  \/ (exists status_code detail,
        fst (predict W file st) = Raise (HTTPExn status_code detail)
        /\ (status_code = 400 \/ status_code = 500 \/ status_code = 503)).
Proof.
  unfold predict, bind.
  assert (Hgate : (exists st1, readiness_gate W st = (Ok tt, st1))
                  \/ (exists detail st1,
                        readiness_gate W st = (Raise (HTTPExn 503 detail), st1))).
  { destruct (model st) as [mdl |] eqn:Hm.
    - left. exists st. exact (readiness_gate_loaded W st mdl Hm).
    - rewrite (readiness_gate_unloaded W st Hm).
      destruct (load_model_safe_total W st) as [ok Hok].
      destruct (load_model_safe W st) as [r st1]. cbn [fst] in Hok. subst r.
      destruct ok; [left | right]; eexists; try eexists; reflexivity. }
  destruct Hgate as [[st1 Hg] | [detail [st1 Hg]]]; rewrite Hg.
  - destruct (negb (is_image_content_type (content_type file))).
    + right. eexists; eexists. split; [reflexivity | auto].
    + rewrite try_except_predict_handlers. cbn [fst].
      destruct (map_outcome_http (fst (predict_steps W file st1)))
        as [[body Hb] | [s [d [Hs [H4 | H5]]]]].
      * left. now exists body.
      * right. exists s, d. auto.
      * right. exists s, d. auto.
  - right. exists 503, detail. auto.
Qed.




(* ================================================================= *)
(** ** [preprocess_image]: effects and the form of the tensor *)

(** X17: [preprocess_image] has one effect, whether it returns or
    raises: one call of the decoder, on exactly the bytes it was given.
    It writes no global, and it never runs the model. *)
Theorem preprocess_image_effects (W : Env) (image_bytes : list byte) (st : State) :
  model (snd (preprocess_image W image_bytes st)) = model st
  /\ model_load_error (snd (preprocess_image W image_bytes st)) = model_load_error st
  /\ calls (snd (preprocess_image W image_bytes st))
     = calls st ++ [call_Image_open image_bytes].
Proof.
  rewrite preprocess_image_state. repeat split.
Qed.

Lemma preprocess_image_returns
    (W : Env) (image_bytes : list byte) (st : State) (tensor : ndarray float32) :
  fst (preprocess_image W image_bytes st) = Ok tensor ->
  exists resized,
    StepsDone W (model st) image_bytes resized /\ tensor = tensor_of resized.
Proof.
  intros Hpre.
  destruct (preprocess_steps_cases W (model st) image_bytes) as [[e HF] | [r HD]].
  - rewrite (preprocess_image_fail W st image_bytes e HF) in Hpre. discriminate.
  - rewrite (preprocess_image_done W st image_bytes r HD) in Hpre.
    exists r. split; [exact HD |]. inversion Hpre. reflexivity.
Qed.

(** X18: every tensor [preprocess_image] returns is well formed: four
    dimensions, a batch of one, three channels, both spatial dimensions
    at least 1, and as many elements as its shape announces. *)
Theorem preprocess_image_tensor_well_formed
    (W : Env) (image_bytes : list byte) (st : State) (tensor : ndarray float32) :
  fst (preprocess_image W image_bytes st) = Ok tensor ->
  exists rows columns,
    shape tensor = [1; rows; columns; 3]
    /\ 1 <= rows /\ 1 <= columns
    /\ ndim tensor = 4
    /\ len (data tensor) = shape_size (shape tensor).
Proof.
  intros Hpre.
  destruct (preprocess_image_returns W image_bytes st tensor Hpre) as [r [HD Ht]].
  destruct (preprocess_image_tensor W st image_bytes r HD) as [t [Ht' [Hs [Hl _]]]].
  rewrite Hpre in Ht'. inversion Ht'; subst t.
  destruct HD as [img rgb Ho Hc Hr].
  destruct (Image_resize_size W rgb r _ Hr) as [_ [_ [Hw Hh]]].
  exists (snd (spec_target_size (model st))), (fst (spec_target_size (model st))).
  split; [exact Hs |]. split; [exact Hh |]. split; [exact Hw |].
  split.
  - unfold ndim. now rewrite Hs.
  - rewrite Hl, Hs. unfold shape_size. cbn [fold_right]. lia.
Qed.

Lemma preprocess_image_tensor_well_formed_witness :
  exists rows columns,
    shape (tensor_of (mk_Image mode_RGB (2, 3) (fun _ _ _ => x80)))
    = [1; rows; columns; 3]
    /\ 1 <= rows /\ 1 <= columns.
Proof.
  destruct (preprocess_image_tensor_well_formed (Demo.env 2 3) Demo.colour_2x1
              (Demo.loaded 2 3)
              (tensor_of (mk_Image mode_RGB (2, 3)
                 (fun x y c => nth ((Z.to_nat (Z.of_nat y * 1 / 3) * 2
                                     + Z.to_nat (Z.of_nat x * 2 / 2)) * 3 + c)
                                   [x00; x80; xff; x10; x20; x30] x00))))
    as [rows [columns [Hs [Hr [Hc _]]]]].
  - vm_compute. reflexivity.
  - exists rows, columns. split; [| split; assumption].
    rewrite <- Hs. reflexivity.
Defined.

(** X19: with no model loaded the target is the default, so every
    image that decodes, of whatever size and mode, comes out as a
    tensor of shape (1, 224, 224, 3) with 150528 elements, all in the
    unit interval. *)
Theorem preprocess_image_default_target
    (W : Env) (image_bytes : list byte) (st : State) (tensor : ndarray float32) :
  model st = None ->
  fst (preprocess_image W image_bytes st) = Ok tensor ->
  shape tensor = [1; 224; 224; 3]
  /\ len (data tensor) = 150528
  /\ Forall (fun v => in_unit_interval v = true) (data tensor).
Proof.
  intros Hm Hpre.
  destruct (preprocess_image_returns W image_bytes st tensor Hpre) as [r [HD Ht]].
  destruct (preprocess_image_tensor W st image_bytes r HD) as [t [Ht' [Hs [Hl Hu]]]].
  rewrite Hpre in Ht'. inversion Ht'; subst t.
  rewrite Hm in Hs, Hl. cbn in Hs, Hl.
  split; [exact Hs |]. split; [exact Hl | exact Hu].
Qed.

Lemma preprocess_image_default_target_witness :
  exists tensor,
    fst (preprocess_image (Demo.env 224 224) Demo.gray_1x2 Demo.unloaded) = Ok tensor
    /\ shape tensor = [1; 224; 224; 3]
    /\ len (data tensor) = 150528.
Proof.
  destruct preprocess_image_default_shape as [tensor [Ht _]].
  exists tensor. split; [exact Ht |].
  destruct (preprocess_image_default_target (Demo.env 224 224) Demo.gray_1x2
              Demo.unloaded tensor eq_refl Ht) as [Hs [Hl _]].
  split; assumption.
Defined.

(* ================================================================= *)
(** ** The scaling of intensities *)

Lemma normalised_data (a : ndarray byte) :
  data (divide_255 (astype_float32 a)) = map scale_intensity (data a).
Proof.
  unfold divide_255, astype_float32, scale_intensity; cbn [data].
  now rewrite map_map.
Qed.

Lemma SFltb_trans (x y z : spec_float) :
  SFltb x y = true -> SFltb y z = true -> SFltb x z = true.
Proof.
  intros Hxy Hyz. apply (SFleb_ltb_trans x y z); [now apply SFltb_leb | exact Hyz].
Qed.

(** The scaled value of the intensity [i], as a number. *)
Lemma scaled_consecutive (i : nat) :
  (i < 255)%nat ->
  SFltb (f32_div (f32_of_Z (Z.of_nat i)) (f32_of_Z 255))
        (f32_div (f32_of_Z (Z.of_nat (S i))) (f32_of_Z 255)) = true.
Proof.
  intros Hi.
  assert (Hall : forallb (fun i =>
                   SFltb (f32_div (f32_of_Z (Z.of_nat i)) (f32_of_Z 255))
                         (f32_div (f32_of_Z (Z.of_nat (S i))) (f32_of_Z 255)))
                   (seq 0 255) = true) by (vm_compute; reflexivity).
  rewrite forallb_forall in Hall. apply Hall, in_seq. lia.
Qed.

Lemma scaled_increasing (k i : nat) :
  (i + S k <= 255)%nat ->
  SFltb (f32_div (f32_of_Z (Z.of_nat i)) (f32_of_Z 255))
        (f32_div (f32_of_Z (Z.of_nat (i + S k))) (f32_of_Z 255)) = true.
Proof.
  induction k as [| k IH]; intros Hk.
  - rewrite Nat.add_1_r. apply scaled_consecutive. lia.
  - apply (SFltb_trans _ (f32_div (f32_of_Z (Z.of_nat (i + S k))) (f32_of_Z 255))).
    + apply IH. lia.
    + replace (i + S (S k))%nat with (S (i + S k)) by lia.
      apply scaled_consecutive. lia.
Qed.

(** X20: the scaling of line 165 loses nothing.  Each element of the
    tensor is the intensity of its pixel, as [float32], divided by
    [255.0]; intensity 0 gives exactly 0.0 and intensity 255 exactly
    1.0; and a larger intensity gives a strictly larger value, so
    distinct intensities stay distinct and their order is kept. *)
Theorem scale_intensity_strictly_increasing :
  (forall a : ndarray byte,
     data (divide_255 (astype_float32 a)) = map scale_intensity (data a))
  /\ scale_intensity x00 = f32_zero
  /\ scale_intensity xff = f32_one
  /\ forall a b : byte,
       (Byte.to_N a < Byte.to_N b)%N ->
       SFltb (scale_intensity a) (scale_intensity b) = true.
Proof.
  split; [exact normalised_data |].
  split; [reflexivity |]. split; [reflexivity |].
  intros a b Hab. unfold scale_intensity.
  pose proof (Byte.to_N_bounded b) as Hb.
  rewrite <- (N2Nat.id (Byte.to_N a)), <- (N2Nat.id (Byte.to_N b)), !nat_N_Z.
  replace (N.to_nat (Byte.to_N b))
    with (N.to_nat (Byte.to_N a)
          + S (N.to_nat (Byte.to_N b) - N.to_nat (Byte.to_N a) - 1))%nat by lia.
  apply scaled_increasing. lia.
Qed.

(* ================================================================= *)
(** ** The readiness gate, seen from the request *)

Lemma readiness_gate_outcome (W : Env) (st : State) :
  (exists mdl, readiness_gate W st = (Ok tt, snd (readiness_gate W st))
               /\ model (snd (readiness_gate W st)) = Some mdl)
  \/ (model st = None
      /\ fst (load_model_safe W st) = Ok false
      /\ exists detail,
           readiness_gate W st = (Raise (HTTPExn 503 detail), snd (load_model_safe W st))).
Proof.
  destruct (model st) as [mdl |] eqn:Hm.
  - left. exists mdl. rewrite (readiness_gate_loaded W st mdl Hm). cbn [snd]. auto.
  - rewrite (readiness_gate_unloaded W st Hm).
    destruct (load_model_safe_cases W st Hm); cbn [fst snd model].
    + right. split; [reflexivity |]. split; [reflexivity |]. eexists. reflexivity.
    + right. split; [reflexivity |]. split; [reflexivity |]. eexists. reflexivity.
    + right. split; [reflexivity |]. split; [reflexivity |]. eexists. reflexivity.
    + left. eexists. split; reflexivity.
Qed.

(** X21: a request that gets past the readiness gate runs with the
    model loaded, so the "Model is not loaded" branch of
    [predict_async] is never taken inside [predict]: there the
    inference step is the call of the model itself. *)
Theorem readiness_gate_guarantees_model (W : Env) (st : State) :
  fst (readiness_gate W st) = Ok tt ->
  exists mdl,
    model (snd (readiness_gate W st)) = Some mdl
    /\ forall image_bytes img_array,
         predict_async img_array (snd (preprocess_image W image_bytes
                                         (after_read (snd (readiness_gate W st)))))
         = external (call_model_predict img_array) (model_predict mdl img_array)
             (snd (preprocess_image W image_bytes
                     (after_read (snd (readiness_gate W st))))).
Proof.
  intros Hok.
  destruct (readiness_gate_outcome W st) as [[mdl [_ Hmdl]] | [_ [_ [detail Hg]]]].
  - exists mdl. split; [exact Hmdl |].
    intros image_bytes img_array.
    unfold predict_async, bind, get_model.
    rewrite preprocess_image_state. cbn [opened after_read model].
    now rewrite Hmdl.
  - rewrite Hg in Hok. discriminate.
Qed.

Lemma readiness_gate_guarantees_model_witness :
  exists mdl, model (snd (readiness_gate (Demo.env 2 3) Demo.failed)) = Some mdl.
Proof.
  destruct (readiness_gate_guarantees_model (Demo.env 2 3) Demo.failed eq_refl)
    as [mdl [Hmdl _]].
  now exists mdl.
Defined.

(** X22: the gate comes before validation.  An upload with a content
    type that is not an image is answered 400 when the model is loaded
    or loads, and 503 when the handle is empty and the load fails:
    never anything else, and 503 in that case only. *)
Theorem predict_gate_precedes_validation
    (W : Env) (file : UploadFile) (st : State) :
  is_image_content_type (content_type file) = false ->
  (fst (respond (fst (predict W file st))) = 400
   \/ fst (respond (fst (predict W file st))) = 503)
  /\ (fst (respond (fst (predict W file st))) = 503
      <-> model st = None /\ fst (load_model_safe W st) = Ok false).
Proof.
  intros Hct. unfold predict, bind.
  destruct (readiness_gate_outcome W st) as [[mdl [Hg Hmdl]] | [Hm [Hfail [detail Hg]]]];
    rewrite Hg, ?Hct; cbn [negb fst respond].
  - split; [now left |]. split; [discriminate |].
    intros [Hm Hfail].
    rewrite (readiness_gate_unloaded W st Hm) in Hg.
    destruct (load_model_safe W st) as [[[|] | e] st']; cbn [fst] in Hfail;
      discriminate.
  - split; [now right |]. split; [intros _; now split | reflexivity].
Qed.

Lemma predict_gate_precedes_validation_witness :
  fst (respond (fst (predict Demo.env_no_artifact
                       (Demo.upload "text/plain" Demo.not_an_image) Demo.unloaded))) = 503
  /\ fst (respond (fst (predict (Demo.env 2 3)
                          (Demo.upload "text/plain" Demo.not_an_image) Demo.unloaded))) = 400.
Proof.
  split.
  - apply (proj2 (predict_gate_precedes_validation Demo.env_no_artifact
                    (Demo.upload "text/plain" Demo.not_an_image) Demo.unloaded eq_refl)).
    split; reflexivity.
  - destruct (predict_gate_precedes_validation (Demo.env 2 3)
                (Demo.upload "text/plain" Demo.not_an_image) Demo.unloaded eq_refl)
      as [[H | H] _]; [exact H |].
    vm_compute in H. discriminate.
Defined.

(** X23: an artifact that loads but whose shape cannot be read for the
    log line.  The on-demand load then answers [False] and records the
    error, so the request that triggered it gets a 503, although the
    handle already holds the model; the next request passes the gate
    with that model, the stale error still recorded. *)
Theorem load_model_safe_shape_unreadable
    (W : Env) (st : State) (mdl : Model) (e : exn) :
  model st = None ->
  os_path_exists W = true ->
  keras_load_model W = Ok mdl ->
  getattr (input_shape mdl) "input_shape" = Raise e ->
  load_model_safe W st
  = (Ok false,
     mk_State (Some mdl) (Some (str e)) (calls st ++ [call_path_exists; call_load_model]))
  /\ (forall file, fst (respond (fst (predict W file st))) = 503)
  /\ forall W' file,
       readiness_gate W' (snd (predict W file st)) = (Ok tt, snd (predict W file st)).
Proof.
  intros Hm Hex Hload Hattr.
  assert (Hl : load_model_safe W st
               = (Ok false,
                  mk_State (Some mdl) (Some (str e))
                           (calls st ++ [call_path_exists; call_load_model]))).
  { unfold load_model_safe, bind at 1, get_model. rewrite Hm.
    rewrite try_except_Exception.
    unfold bind, external, set_model, set_model_load_error, lift, ret.
    rewrite Hex, Hload. cbn [negb model model_load_error calls].
    rewrite Hattr. now rewrite <- app_assoc. }
  assert (Hp : forall file,
             predict W file st
             = (Raise (HTTPExn 503 ("Model not loaded: "
                                    ++ or_default (Some (str e)) "Model not loaded")%string),
                mk_State (Some mdl) (Some (str e))
                         (calls st ++ [call_path_exists; call_load_model]))).
  { intros file. unfold predict, bind.
    now rewrite (readiness_gate_unloaded W st Hm), Hl. }
  split; [exact Hl |]. split.
  - intros file. now rewrite Hp.
  - intros W' file. rewrite Hp. cbn [snd].
    now apply (readiness_gate_loaded W' _ mdl).
Qed.

Lemma load_model_safe_shape_unreadable_witness :
  load_model_safe
    (mk_Env "model.keras" true
       (Ok (mk_Model (attr_raises (Exn ValueError "model has no defined input shape"))
                     (attr_value (PyTuple [PyNone; PyInt 3]))
                     (fun _ => Ok [Demo.scores])))
       Demo.open Demo.convert_data Demo.resample)
    Demo.unloaded
  = (Ok false,
     mk_State
       (Some (mk_Model (attr_raises (Exn ValueError "model has no defined input shape"))
                       (attr_value (PyTuple [PyNone; PyInt 3]))
                       (fun _ => Ok [Demo.scores])))
       (Some "model has no defined input shape"%string)
       [call_path_exists; call_load_model]).
Proof.
  apply (load_model_safe_shape_unreadable
           (mk_Env "model.keras" true
              (Ok (mk_Model (attr_raises (Exn ValueError "model has no defined input shape"))
                            (attr_value (PyTuple [PyNone; PyInt 3]))
                            (fun _ => Ok [Demo.scores])))
              Demo.open Demo.convert_data Demo.resample)
           Demo.unloaded _ (Exn ValueError "model has no defined input shape"));
    reflexivity.
Defined.
